(** * FileTree: an in-memory directory tree and its materialisation

    Shallow embedding of [File_tree.py].  Python objects live in a heap
    indexed by object identity, so that the aliasing created by
    [add_child] (a node reachable from two [children] dicts, a [parent]
    link rewritten in place) is visible; the [files] dicts live in a
    store of their own, so that a dict handed to several constructors is
    one object that [add_file] changes for all of them.  The operating
    system is a parameter of the development: the program is verified
    against any implementation of the three calls it makes
    ([os.path.exists], [os.mkdir], [open(..., "w")] followed by
    [write]). *)

From stdpp Require Import base option list strings.

(** ** Strings and [os.path.join] (POSIX flavour) *)

Module PosixPath.

Definition sep : string := "/".

(** [s.startswith(prefix)] *)
Definition startswith (s prefix : string) : bool := String.prefix prefix s.

(** [s.endswith(suffix)]: [s] is [suffix], or its tail ends with it. *)
Fixpoint endswith (s suffix : string) : bool :=
  String.eqb s suffix
  || match s with
     | EmptyString => false
     | String _ t => endswith t suffix
     end.

(** One round of the loop of [posixpath.join]:
    [if b.startswith(sep): path = b
     elif not path or path.endswith(sep): path += b
     else: path += sep + b]. *)
Definition join2 (path b : string) : string :=
  if startswith b sep then b
  else if String.eqb path "" || endswith path sep then path +:+ b
  else path +:+ (sep +:+ b).

(** [os.path.join(a, *p)] *)
Definition join (a : string) (p : list string) : string :=
  fold_left join2 p a.

Arguments join2 : simpl never.

End PosixPath.
Export PosixPath.

(** ** Python dictionaries

    A [dict] keeps insertion order; assigning to a key that is present
    replaces the value in place, assigning to a new key appends. *)

Definition dict (V : Type) : Type := list (string * V).

Fixpoint dict_get {V} (d : dict V) (k : string) : option V :=
  match d with
  | [] => None
  | (k', v) :: d' => if String.eqb k' k then Some v else dict_get d' k
  end.

Fixpoint dict_set {V} (d : dict V) (k : string) (v : V) : dict V :=
  match d with
  | [] => [(k, v)]
  | (k', v') :: d' =>
      if String.eqb k' k then (k', v) :: d' else (k', v') :: dict_set d' k v
  end.

Definition dict_keys {V} (d : dict V) : list string := map fst d.
Definition dict_values {V} (d : dict V) : list V := map snd d.

(** ** Objects and the heap *)

(** Object identity. *)
Abbreviation addr := nat.

(** [parent: "str | FileTree"] *)
Inductive Parent : Type :=
| ParentStr (path : string)
| ParentNode (node : addr).

(** Identity of a dict object that holds files. *)
Abbreviation ref := nat.

(** A [FileTree] instance.  [parent] and [name] are assigned first in
    [__init__]; [children] and [files] are assigned later, so an object
    whose [__init__] was interrupted lacks them ([None]).  [children] is
    a dict that [__init__] creates and no method hands out, held by
    value; [files] may be the dict that the caller passed to the
    constructor, held by reference. *)
Record FileTree : Type := mkFileTree {
  parent : Parent;
  name : string;
  children : option (dict addr);
  files : option ref;
}.

Definition set_parent (p : Parent) (n : FileTree) : FileTree :=
  mkFileTree p (name n) (children n) (files n).
Definition set_children (c : dict addr) (n : FileTree) : FileTree :=
  mkFileTree (parent n) (name n) (Some c) (files n).
Definition set_files (f : ref) (n : FileTree) : FileTree :=
  mkFileTree (parent n) (name n) (children n) (Some f).

(** The heap: the object at address [a] is the [a]-th element; a new
    object is appended. *)
Abbreviation heap := (list FileTree).

(** The store of the [files] dicts, laid out in the same way. *)
Abbreviation store := (list (dict string)).

(** ** Path and root resolution

    These methods only read [parent] and [name], which every object has,
    so they cannot raise; they recurse along the parent links, which the
    model bounds by [fuel] ([None]: no result within that depth). *)

Fixpoint __get_path_recursive (fuel : nat) (h : heap) (self : addr)
    (path : string) : option string :=
  match fuel with
  | 0 => None
  | S fuel' =>
      n ← h !! self;
      match parent n with
      | ParentStr root => Some (join root [name n; path])
      | ParentNode p =>
          __get_path_recursive fuel' h p (join (name n) [path])
      end
  end.

Definition get_path (fuel : nat) (h : heap) (self : addr) : option string :=
  __get_path_recursive fuel h self "".

Fixpoint get_root_path (fuel : nat) (h : heap) (self : addr) : option string :=
  match fuel with
  | 0 => None
  | S fuel' =>
      n ← h !! self;
      match parent n with
      | ParentNode p => get_root_path fuel' h p
      | ParentStr root => Some root
      end
  end.

Fixpoint get_root (fuel : nat) (h : heap) (self : addr) : option addr :=
  match fuel with
  | 0 => None
  | S fuel' =>
      n ← h !! self;
      match parent n with
      | ParentStr _ => Some self
      | ParentNode p => get_root fuel' h p
      end
  end.

(** ** Exceptions and results *)

Inductive exn : Type :=
| AttributeError (msg : string)
| TypeError (msg : string)
| KeyError (key : string)
| FileNotFoundError (msg : string)
| FileExistsError (path : string)
| OSError (msg : string)
(** [class PathNotExists(Exception)], raised as [PathNotExists(msg, e)] *)
| PathNotExists (msg : string) (e : exn).

Inductive result (A : Type) : Type :=
| Ret (a : A)
| Raise (e : exn).
Arguments Ret {A} a.
Arguments Raise {A} e.

(** ** The operating system

    The three calls of the program into [os] and [open].  Each call
    takes the file system and returns the exception it raised, if any,
    and the file system it leaves. *)

Class FileSystem : Type := {
  FS : Type;
  (** [os.path.exists(path)] *)
  os_path_exists : string -> FS -> bool;
  (** [os.mkdir(path)] *)
  os_mkdir : string -> FS -> option exn * FS;
  (** [with open(path, "w", encoding=encoding) as f: f.write(content)] *)
  os_open_write : string -> string -> string -> FS -> option exn * FS;
}.

(** What [mkdir(2)] promises about a path it has created: the path
    exists afterwards, later directory creations do not remove it, and
    creating an existing path fails with [EEXIST] and changes nothing. *)
Class FileSystemLaws `{FileSystem} : Prop := {
  mkdir_creates p fs fs' :
    os_mkdir p fs = (None, fs') -> os_path_exists p fs' = true;
  mkdir_keeps p q fs r fs' :
    os_path_exists p fs = true -> os_mkdir q fs = (r, fs') ->
    os_path_exists p fs' = true;
  mkdir_existing p fs :
    os_path_exists p fs = true ->
    os_mkdir p fs = (Some (FileExistsError p), fs);
}.

Section Program.

Context `{FileSystem}.

(** ** The state of a run: objects, dicts of files, file system,
    warnings emitted *)

Record world : Type := World {
  w_heap : heap;
  w_dicts : store;
  w_fs : FS;
  w_warnings : list string;
}.

(** A computation returns a value or raises, and leaves a world;
    [None] stands for a recursion deeper than the fuel allows (or an
    address or reference that is not in the heap or the store, which
    Python cannot produce). *)
Definition M (A : Type) : Type := world -> option (result A * world).

#[global] Instance M_ret : MRet M := fun A a w => Some (Ret a, w).

#[global] Instance M_bind : MBind M := fun A B k m w =>
  match m w with
  | None => None
  | Some (Ret a, w') => k a w'
  | Some (Raise e, w') => Some (Raise e, w')
  end.

Definition raise {A} (e : exn) : M A := fun w => Some (Raise e, w).

Definition diverge {A} : M A := fun _ => None.

(** [try: m  except Exception as e: handler e] *)
Definition try_except {A} (m : M A) (handler : exn -> M A) : M A :=
  fun w =>
    match m w with
    | Some (Raise e, w') => handler e w'
    | r => r
    end.

(** [for x in l: body x] *)
Fixpoint for_each {A} (l : list A) (body : A -> M unit) : M unit :=
  match l with
  | [] => mret tt
  | x :: l' => body x;; for_each l' body
  end.

(** A read-only method of the heap, called from a computation. *)
Definition call {A} (f : heap -> option A) : M A := fun w =>
  match f (w_heap w) with
  | Some a => Some (Ret a, w)
  | None => None
  end.

(** *** Attribute access *)

Definition load (a : addr) : M FileTree := call (fun h => h !! a).

Definition update (a : addr) (f : FileTree -> FileTree) : M unit :=
  fun w =>
    match w_heap w !! a with
    | Some n =>
        Some (Ret tt,
              World (<[a := f n]> (w_heap w)) (w_dicts w) (w_fs w)
                    (w_warnings w))
    | None => None
    end.

(** A new object, at the next free address. *)
Definition alloc (n : FileTree) : M addr := fun w =>
  Some (Ret (length (w_heap w)),
        World (w_heap w ++ [n]) (w_dicts w) (w_fs w) (w_warnings w)).

Definition getattr_name (a : addr) : M string :=
  n ← load a; mret (name n).

Definition getattr_children (a : addr) : M (dict addr) :=
  n ← load a;
  match children n with
  | Some c => mret c
  | None =>
      raise (AttributeError "'FileTree' object has no attribute 'children'")
  end.

Definition getattr_files (a : addr) : M ref :=
  n ← load a;
  match files n with
  | Some f => mret f
  | None =>
      raise (AttributeError "'FileTree' object has no attribute 'files'")
  end.

(** *** Dict objects *)

(** A new dict object with the items [d]. *)
Definition dict_new (d : dict string) : M ref := fun w =>
  Some (Ret (length (w_dicts w)),
        World (w_heap w) (w_dicts w ++ [d]) (w_fs w) (w_warnings w)).

(** The items that the dict object [r] holds now. *)
Definition dict_items (r : ref) : M (dict string) := fun w =>
  match w_dicts w !! r with
  | Some d => Some (Ret d, w)
  | None => None
  end.

(** [r[k] = v], in place. *)
Definition dict_setitem (r : ref) (k v : string) : M unit := fun w =>
  match w_dicts w !! r with
  | Some d =>
      Some (Ret tt,
            World (w_heap w) (<[r := dict_set d k v]> (w_dicts w)) (w_fs w)
                  (w_warnings w))
  | None => None
  end.

(** The items of [self.files]. *)
Definition read_files (a : addr) : M (dict string) :=
  r ← getattr_files a;
  dict_items r.

(** *** Calls into the operating system *)

Definition path_exists (p : string) : M bool := fun w =>
  Some (Ret (os_path_exists p (w_fs w)), w).

Definition lift_os (f : FS -> option exn * FS) : M unit := fun w =>
  let '(r, fs') := f (w_fs w) in
  Some (match r with None => Ret tt | Some e => Raise e end,
        World (w_heap w) (w_dicts w) fs' (w_warnings w)).

Definition mkdir_call (p : string) : M unit := lift_os (os_mkdir p).

Definition open_write (p encoding content : string) : M unit :=
  lift_os (os_open_write p encoding content).

(** [warnings.warn(msg)] *)
Definition warn (msg : string) : M unit := fun w =>
  Some (Ret tt,
        World (w_heap w) (w_dicts w) (w_fs w) (w_warnings w ++ [msg])).

(** *** File and child access *)

Definition get_file_content (self : addr) (file_name : string)
    : M (option string) :=
  fs ← read_files self;
  mret (dict_get fs file_name).

Definition get_file_path (fuel : nat) (self : addr) (file_name : string)
    : M (option string) :=
  fs ← read_files self;
  match dict_get fs file_name with
  | None => mret None
  | Some _ =>
      p ← call (fun h => get_path fuel h self);
      mret (Some (join p [file_name]))
  end.

Definition get_child (self : addr) (name : string) : M (option addr) :=
  cs ← getattr_children self;
  mret (dict_get cs name).

(** *** Materialisation

    The fuel of the traversals counts the nested calls still allowed;
    the path computations made at a node get what is left there. *)

(** [if not file_path] holds for [None] and for the empty string. *)
Definition create_file (fuel : nat) (self : addr) (file_name : string)
    (encoding : string) : M unit :=
  file_path ← get_file_path fuel self file_name;
  match file_path with
  | None | Some EmptyString =>
      n ← getattr_name self;
      raise (FileNotFoundError
               ("Virtual file " +:+ file_name +:+ " not found from node " +:+ n))
  | Some file_path =>
      try_except
        (fs ← read_files self;
         match dict_get fs file_name with
         | Some content => open_write file_path encoding content
         | None => raise (KeyError file_name)
         end)
        (fun e =>
           p ← call (fun h => get_path fuel h self);
           raise (PathNotExists ("Maybe path " +:+ p +:+ " not exists") e))
  end.

Fixpoint __mkdir__ (fuel : nat) (self : addr) : M unit :=
  match fuel with
  | 0 => diverge
  | S fuel' =>
      p ← call (fun h => get_path fuel h self);
      mkdir_call p;;
      cs ← getattr_children self;
      for_each (dict_values cs) (__mkdir__ fuel')
  end.

Definition mkdir (fuel : nat) (self : addr) : M unit :=
  root ← call (fun h => get_root fuel h self);
  __mkdir__ fuel root.

Fixpoint __mkTree__ (fuel : nat) (self : addr) : M unit :=
  match fuel with
  | 0 => diverge
  | S fuel' =>
      p ← call (fun h => get_path fuel h self);
      mkdir_call p;;
      fs ← read_files self;
      for_each (dict_keys fs)
        (fun file_name => create_file fuel self file_name "utf-8");;
      cs ← getattr_children self;
      for_each (dict_values cs) (__mkTree__ fuel')
  end.

Definition mkTree (fuel : nat) (self : addr) : M unit :=
  root ← call (fun h => get_root fuel h self);
  __mkTree__ fuel root.

(** *** Mutation *)

(** The first name of a list of keywords that an earlier one has used. *)
Fixpoint first_repeated (seen names : list string) : option string :=
  match names with
  | [] => None
  | k :: names' =>
      if bool_decide (k ∈ seen) then Some k
      else first_repeated (k :: seen) names'
  end.

(** [add_file(self, **files)].  The pairs are the keyword arguments of
    the call, in order.  Python refuses, before the body runs, a call
    that gives a keyword twice (through unpacked dicts; written out
    twice in the call, the keyword is a syntax error and there is no
    program to run), and a call that gives the keyword [self], which
    is bound to the receiver already.  The body assigns into the dict
    object that [self.files] is. *)
Definition add_file (self : addr) (files : dict string) : M unit :=
  match first_repeated [] (dict_keys files) with
  | Some k =>
      raise (TypeError
               ("FileTree.add_file() got multiple values for keyword argument '"
                +:+ k +:+ "'"))
  | None =>
      if bool_decide ("self" ∈ dict_keys files)
      then raise (TypeError
                    "FileTree.add_file() got multiple values for argument 'self'")
      else
        for_each files
          (fun '(name, content) =>
             r ← getattr_files self;
             dict_setitem r name content)
  end.

(** An argument of [add_child]: [Union[str, "FileTree"]]. *)
Inductive child_arg : Type :=
| ChildName (c : string)
| ChildNode (c : addr).

(** [add_child], with the constructor call [FileTree(c, self)] it makes
    for a bare name left open (it is closed below, with [__init__]). *)
Definition add_child_with (FileTree_ : string -> Parent -> M addr)
    (self : addr) (child : list child_arg) : M unit :=
  for_each child
    (fun c =>
       match c with
       | ChildName c =>
           new ← FileTree_ c (ParentNode self);
           cs ← getattr_children self;
           update self (set_children (dict_set cs c new))
       | ChildNode c =>
           update c (set_parent (ParentNode self));;
           cs ← getattr_children self;
           cname ← getattr_name c;
           update self (set_children (dict_set cs cname c))
       end).

(** The [children] argument of the constructor, when it is not [None]:
    a string, a node, or a sequence of names and nodes. *)
Inductive children_arg : Type :=
| ChildrenStr (s : string)
| ChildrenNode (c : addr)
| ChildrenSeq (l : list child_arg).

(** The star-unpacking of [children] in the call of [add_child] from
    [__init__]: a string unpacks into its characters, a node is not
    iterable. *)
Definition unpack (c : children_arg) : M (list child_arg) :=
  match c with
  | ChildrenStr s =>
      mret (map (fun ch => ChildName (String ch EmptyString))
                (String.list_ascii_of_string s))
  | ChildrenNode _ =>
      raise (TypeError
        "FileTree.add_child() argument after * must be an iterable, not FileTree")
  | ChildrenSeq l => mret l
  end.

(** [files or {}]: the dict object passed, unless there is none or it
    is empty; then a new, empty dict. *)
Definition files_or_empty (files : option ref) : M ref :=
  match files with
  | None => dict_new []
  | Some r =>
      d ← dict_items r;
      match d with
      | [] => dict_new []
      | _ :: _ => mret r
      end
  end.

(** The call [FileTree(name, parent, files=files, children=children)]:
    a new object, then the body of [__init__].  The fuel bounds the
    depth of the calls between [__init__] and [add_child]. *)
Fixpoint __init__ (fuel : nat) (name : string) (parent : Parent)
    (files : option ref) (children : option children_arg)
    : M addr :=
  match fuel with
  | 0 => diverge
  | S fuel' =>
      match parent with
      | ParentStr p =>
          ex ← path_exists p;
          if negb ex
          then warn ("Root node root path not exists: " +:+ p)
          else mret tt
      | ParentNode _ => mret tt
      end;;
      self ← alloc (mkFileTree parent name None None);
      match children with
      | Some c =>
          items ← unpack c;
          add_child_with (fun c p => __init__ fuel' c p None None) self items
      | None => update self (set_children [])
      end;;
      f ← files_or_empty files;
      update self (set_files f);;
      mret self
  end.

Definition add_child (fuel : nat) (self : addr) (child : list child_arg)
    : M unit :=
  add_child_with (fun c p => __init__ fuel c p None None) self child.

End Program.

(** ** A small file system

    An instance of the operating-system interface, used to run the
    program on concrete trees: directories and regular files named by
    their components, no links, and no [..] (a path with a [..]
    component resolves to nothing).  Relative paths start at the working
    directory, which always exists, as does [/]. *)

Module SimpleFS.

(** The components of a path: the pieces between separators. *)
Fixpoint components (s cur : string) : list string :=
  match s with
  | EmptyString => [cur]
  | String c t =>
      if String.eqb (String c EmptyString) sep then cur :: components t ""
      else components t (cur +:+ String c EmptyString)
  end.

Definition skipped (c : string) : bool :=
  String.eqb c "" || String.eqb c ".".

(** The object a path names: ["/"] then the components for an absolute
    path, the components alone for a relative one. *)
Definition resolve (p : string) : option (list string) :=
  if String.eqb p "" then None
  else
    let cs := filter (fun c => negb (skipped c) = true) (components p "") in
    if bool_decide (".." ∈ cs) then None
    else Some (if startswith p sep then "/" :: cs else cs).

Record state : Type := State {
  dirs : list (list string);
  regular : list (list string * string);
}.

Definition empty : state := State [] [].

Definition is_dir (k : list string) (fs : state) : bool :=
  bool_decide (k = []) || bool_decide (k = ["/"])
  || bool_decide (k ∈ dirs fs).

Definition is_file (k : list string) (fs : state) : bool :=
  bool_decide (k ∈ map fst (regular fs)).

Definition path_exists (p : string) (fs : state) : bool :=
  match resolve p with
  | None => false
  | Some k => is_dir k fs || (is_file k fs && negb (endswith p sep))
  end.

Definition mkdir (p : string) (fs : state) : option exn * state :=
  match resolve p with
  | None => (Some (FileNotFoundError p), fs)
  | Some k =>
      if is_dir k fs || is_file k fs then (Some (FileExistsError p), fs)
      else if is_dir (removelast k) fs
           then (None, State (dirs fs ++ [k]) (regular fs))
           else (Some (FileNotFoundError p), fs)
  end.

Definition open_write (p encoding content : string) (fs : state)
    : option exn * state :=
  match resolve p with
  | None => (Some (FileNotFoundError p), fs)
  | Some k =>
      if is_dir k fs || endswith p sep then (Some (OSError p), fs)
      else if is_dir (removelast k) fs
           then (None,
                 State (dirs fs)
                   ((k, content)
                      :: filter (fun e => e.1 <> k) (regular fs)))
           else (Some (FileNotFoundError p), fs)
  end.

Definition simple_fs : FileSystem := {|
  FS := state;
  os_path_exists := path_exists;
  os_mkdir := mkdir;
  os_open_write := open_write;
|}.

End SimpleFS.

(** ** Example trees

    The tree built by [test.py], over a root path [/srv]: a root folder
    with one file, a child created from a bare name, and a grandchild
    that was built as a root of its own and then moved under the child. *)

Module Examples.

Definition folder : FileTree :=
  mkFileTree (ParentStr "/srv") "test_folder"
    (Some [("test_folder2", 1)]) (Some 0).

Definition folder2 : FileTree :=
  mkFileTree (ParentNode 0) "test_folder2"
    (Some [("test_folder3", 2)]) (Some 1).

Definition folder3 : FileTree :=
  mkFileTree (ParentNode 1) "test_folder3" (Some []) (Some 2).

Definition test_heap : heap := [folder; folder2; folder3].

(** The files of the three nodes, one dict each. *)
Definition test_dicts : store :=
  [ [("test.txt", "Hello World!")]; []; [("test3.txt", "Hello World!")] ].

(** A file system in which [/srv] exists and is empty. *)
Definition srv : SimpleFS.state := SimpleFS.State [["/"; "srv"]] [].

Definition test_world : @world SimpleFS.simple_fs :=
  @World SimpleFS.simple_fs test_heap test_dicts srv [].

(** The directories of the tree, as [mkdir()] creates them. *)
Definition srv_with_dirs : SimpleFS.state :=
  SimpleFS.State
    [ ["/"; "srv"];
      ["/"; "srv"; "test_folder"];
      ["/"; "srv"; "test_folder"; "test_folder2"];
      ["/"; "srv"; "test_folder"; "test_folder2"; "test_folder3"] ]
    [].

(** The tree completely written out. *)
Definition srv_with_tree : SimpleFS.state :=
  SimpleFS.State
    (SimpleFS.dirs srv_with_dirs)
    [ (["/"; "srv"; "test_folder"; "test_folder2"; "test_folder3";
        "test3.txt"], "Hello World!");
      (["/"; "srv"; "test_folder"; "test.txt"], "Hello World!") ].

(** A root over the empty path, with the empty name. *)
Definition blank : FileTree :=
  mkFileTree (ParentStr "") "" (Some []) (Some 0).

Definition blank_heap : heap := [blank].

(** Two roots, and a child of the first. *)
Definition root_a : FileTree :=
  mkFileTree (ParentStr "/srv") "a" (Some [("c", 2)]) (Some 0).
Definition root_b : FileTree :=
  mkFileTree (ParentStr "/srv") "b" (Some []) (Some 1).
Definition child_c : FileTree :=
  mkFileTree (ParentNode 0) "c" (Some []) (Some 2).

Definition two_roots : heap := [root_a; root_b; child_c].
Definition two_roots_dicts : store := [ []; []; [] ].

End Examples.

(** ** Notions used in the statements *)

(** A path to which [join] appends the next segment as it is: empty, or
    ending with the separator. *)
Definition closed (s : string) : bool := String.eqb s "" || endswith s sep.

(** [chain h c r root d]: the parent links lead from [c] up to the root
    node [r], whose parent is the raw string [root], in [d] steps. *)
Inductive chain (h : heap) : addr -> addr -> string -> nat -> Prop :=
| chain_root r n root :
    h !! r = Some n -> parent n = ParentStr root -> chain h r r root 0
| chain_step c n p r root d :
    h !! c = Some n -> parent n = ParentNode p -> chain h p r root d ->
    chain h c r root (S d).

(** The dictionary after the assignments [d[k] = v] for the pairs of
    [kvs], in order. *)
Definition assign_all {V} (kvs : list (string * V)) (d : dict V) : dict V :=
  fold_left (fun d kv => dict_set d kv.1 kv.2) kvs d.

(** The dict that [files or {}] keeps of the argument [files]: the
    given dict itself when there is one and it is not empty; otherwise
    none, and the node gets a new empty dict. *)
Definition kept_files (ds : store) (files : option ref) : option ref :=
  r ← files;
  d ← (ds !! r : option (dict string));
  match d with
  | [] => None
  | _ :: _ => Some r
  end.

(** Keyword arguments that a call of [add_file] can bind: no name
    twice, and not the name [self] of the receiver. *)
Definition kwargs_ok (files : dict string) : Prop :=
  NoDup (dict_keys files) /\ "self" ∉ dict_keys files.

(** *** The order of work of [mkTree], as the specification gives it

    One unit of work on the file system: the creation of a directory, or
    the single-file creation operation on a registered file of a node. *)
Inductive action : Type :=
| MakeDirectory (path : string)
| CreateFile (node : addr) (file_name : string).

(** Pre-order: at each node its directory first, then its registered
    files, then the sub-trees of its children, in the order of the
    dicts.  [None]: the tree is deeper than [fuel], or a node lacks its
    [files] or [children].  The files of a node are the keys of the
    dict object it holds, read in the store [ds]. *)
Fixpoint mkTree_plan (fuel : nat) (h : heap) (ds : store) (self : addr)
    : option (list action) :=
  match fuel with
  | 0 => None
  | S fuel' =>
      n ← h !! self;
      p ← get_path fuel h self;
      r ← files n;
      fs ← ds !! r;
      cs ← children n;
      below ← mapM (mkTree_plan fuel' h ds) (dict_values cs);
      Some (MakeDirectory p
              :: map (CreateFile self) (dict_keys fs) ++ concat below)
  end.

Section Plan.

Context `{FileSystem}.

Definition perform (fuel : nat) (a : action) : M unit :=
  match a with
  | MakeDirectory p => mkdir_call p
  | CreateFile node file_name => create_file fuel node file_name "utf-8"
  end.

(** The actions one after the other; the first one that raises ends
    the run, with the file system as it is at that point. *)
Definition run_plan (fuel : nat) (acts : list action) : M unit :=
  for_each acts (perform fuel).

End Plan.

(** ** Textual representation and the driver script *)

Section Representation.

Context `{FileSystem}.

(** The line feed of the f-strings. *)
Definition newline : string := String (Ascii.ascii_of_nat 10) EmptyString.

(** [s * n] on strings. *)
Fixpoint repeat_string (s : string) (n : nat) : string :=
  match n with
  | 0 => ""
  | S n' => s +:+ repeat_string s n'
  end.

(** [for child in l: repr_str += rec child] *)
Fixpoint repr_children (rec : addr -> M string) (l : list addr)
    (repr_str : string) : M string :=
  match l with
  | [] => mret repr_str
  | child :: l' =>
      s ← rec child;
      repr_children rec l' (repr_str +:+ s)
  end.

Fixpoint _repr_helper (fuel : nat) (self : addr) (indent : nat) : M string :=
  match fuel with
  | 0 => diverge
  | S fuel' =>
      let indent_str := repeat_string "    " indent in
      n ← getattr_name self;
      let repr_str := indent_str +:+ "<FileTree(name='" +:+ n +:+ "')" +:+ newline in
      cs ← getattr_children self;
      match cs with
      | [] => mret repr_str
      | _ :: _ =>
          repr_children (fun child => _repr_helper fuel' child (indent + 2))
            (dict_values cs)
            (repr_str +:+ (indent_str +:+ "  Children:" +:+ newline))
      end
  end.

Definition __repr__ (fuel : nat) (self : addr) : M string :=
  _repr_helper fuel self 0.

Definition __str__ (fuel : nat) (self : addr) : M string :=
  call (fun h => get_path fuel h self).

(** [test.py], with [path] for the directory of the script; the result
    is the text it prints ([print(root)] goes through [__str__]). *)
Definition test_py (fuel : nat) (path : string) : M string :=
  root ← __init__ fuel "test_folder" (ParentStr path) None None;
  add_file root [("test.txt", "Hello World!")];;
  add_child fuel root [ChildName "test_folder2"];;
  folder2_node ← get_child root "test_folder2";
  match folder2_node with
  | Some folder2_node =>
      folder3_node ← __init__ fuel "test_folder3" (ParentStr path) None None;
      add_child fuel folder2_node [ChildNode folder3_node];;
      add_file folder3_node [("test3.txt", "Hello World!")]
  | None => mret tt
  end;;
  __str__ fuel root.

End Representation.

(** ** Further notions used in the statements *)

(** [lineage h c root names]: the parent links lead from [c] up to a
    root over the raw string [root], and [names] are the names met on
    the way, from the root node down to [c]. *)
Inductive lineage (h : heap) : addr -> string -> list string -> Prop :=
| lineage_root r n root :
    h !! r = Some n -> parent n = ParentStr root ->
    lineage h r root [name n]
| lineage_step c n p root names :
    h !! c = Some n -> parent n = ParentNode p -> lineage h p root names ->
    lineage h c root (names ++ [name n]).

(** The directories of a tree in pre-order: a node, then the sub-trees
    of its children in the order of the dict. *)
Fixpoint mkdir_plan (fuel : nat) (h : heap) (self : addr)
    : option (list string) :=
  match fuel with
  | 0 => None
  | S fuel' =>
      n ← h !! self;
      p ← get_path fuel h self;
      cs ← children n;
      below ← mapM (mkdir_plan fuel' h) (dict_values cs);
      Some (p :: concat below)
  end.

(** The directories that a list of actions creates, in order. *)
Fixpoint directories (acts : list action) : list string :=
  match acts with
  | [] => []
  | MakeDirectory p :: acts' => p :: directories acts'
  | CreateFile _ _ :: acts' => directories acts'
  end.

(** Every entry of every [children] dict is filed under the name of the
    node it refers to. *)
Definition children_named (h : heap) : Prop :=
  forall a n cs k c,
    h !! a = Some n -> children n = Some cs -> (k, c) ∈ cs ->
    exists m, h !! c = Some m /\ name m = k.

(** [ancestor h c a k]: [k] parent links lead from [c] up to [a], none
    of them leaving [a]. *)
Inductive ancestor (h : heap) (a : addr) : addr -> nat -> Prop :=
| ancestor_here : ancestor h a a 0
| ancestor_up c n p k :
    c <> a -> h !! c = Some n -> parent n = ParentNode p ->
    ancestor h a p k -> ancestor h a c (S k).

(** A computation that leaves the objects, the dicts of files and the
    warnings as they are, whatever it returns. *)
Definition keeps_objects `{FileSystem} {A} (m : M A) : Prop :=
  forall w r w', m w = Some (r, w') ->
    w_heap w' = w_heap w /\ w_dicts w' = w_dicts w
    /\ w_warnings w' = w_warnings w.

(** *** The lines of the textual representation

    A line for a node, or the line that announces its children; the
    indentation counts units of four spaces. *)
Inductive repr_line : Type :=
| NodeLine (indent : nat) (name : string)
| ChildrenLine (indent : nat).

Definition render_line `{FileSystem} (l : repr_line) : string :=
  match l with
  | NodeLine indent name =>
      repeat_string "    " indent +:+ "<FileTree(name='" +:+ name +:+ "')"
      +:+ newline
  | ChildrenLine indent =>
      repeat_string "    " indent +:+ "  Children:" +:+ newline
  end.

Definition render `{FileSystem} (lines : list repr_line) : string :=
  foldr (fun l s => render_line l +:+ s) "" lines.

(** The lines of a tree in pre-order: a node, the announcement of its
    children when it has some, and their sub-trees two units deeper. *)
Fixpoint repr_lines (fuel : nat) (h : heap) (self : addr) (indent : nat)
    : option (list repr_line) :=
  match fuel with
  | 0 => None
  | S fuel' =>
      n ← h !! self;
      cs ← children n;
      match cs with
      | [] => Some [NodeLine indent (name n)]
      | _ :: _ =>
          below ← mapM (fun c => repr_lines fuel' h c (indent + 2))
                       (dict_values cs);
          Some (NodeLine indent (name n) :: ChildrenLine indent :: concat below)
      end
  end.

(** ** More example trees *)

Module MoreExamples.

(** A root over the empty path with the empty name, holding a file
    under the empty name. *)
Definition nameless : FileTree :=
  mkFileTree (ParentStr "") "" (Some []) (Some 0).

Definition nameless_heap : heap := [nameless].
Definition nameless_dicts : store := [ [("", "x")] ].

(** A child whose name starts with the separator. *)
Definition root_d : FileTree :=
  mkFileTree (ParentStr "/srv") "d" (Some [("/etc", 1)]) (Some 0).
Definition child_etc : FileTree :=
  mkFileTree (ParentNode 0) "/etc" (Some []) (Some 1).

Definition escaping_heap : heap := [root_d; child_etc].

(** Two roots built from one dict of files, and a third with a dict of
    its own. *)
Definition twin_1 : FileTree :=
  mkFileTree (ParentStr "/srv") "one" (Some []) (Some 0).
Definition twin_2 : FileTree :=
  mkFileTree (ParentStr "/srv") "two" (Some []) (Some 0).
Definition single : FileTree :=
  mkFileTree (ParentStr "/srv") "three" (Some []) (Some 1).

Definition twins_heap : heap := [twin_1; twin_2; single].
Definition twins_dicts : store := [ [("a", "1")]; [("a", "1")] ].

End MoreExamples.

(** * Facts about strings and [join] *)

Section PathFacts.

Implicit Types a b c s x y : string.

Lemma append_empty_r s : s +:+ "" = s.
Proof.
  induction s as [|ch s IH]; [reflexivity|].
  change (String ch s +:+ "") with (String ch (s +:+ "")).
  by rewrite IH.
Qed.

Lemma append_assoc a b c : (a +:+ b) +:+ c = a +:+ (b +:+ c).
Proof.
  induction a as [|ch a IH]; [reflexivity|].
  change (String ch ((a +:+ b) +:+ c) = String ch (a +:+ (b +:+ c))).
  by rewrite IH.
Qed.

Lemma append_eq_empty a b : a +:+ b = "" -> a = "" /\ b = "".
Proof.
  destruct a as [|ch a]; [intros E; split; [done|exact E]|].
  change (String ch a +:+ b) with (String ch (a +:+ b)). discriminate.
Qed.

Lemma eqb_empty_append a b :
  String.eqb (a +:+ b) "" = String.eqb a "" && String.eqb b "".
Proof. destruct a; [reflexivity|destruct b; reflexivity]. Qed.

Lemma startswith_append a b :
  a <> "" -> startswith (a +:+ b) sep = startswith a sep.
Proof.
  destruct a as [|ch a]; [done|intros _].
  change (String ch a +:+ b) with (String ch (a +:+ b)).
  unfold startswith, sep. cbn [String.prefix].
  destruct (Ascii.ascii_dec _ ch); [|done].
  by destruct (a +:+ b), a.
Qed.

Lemma endswith_append a b :
  b <> "" -> endswith (a +:+ b) sep = endswith b sep.
Proof.
  intros Hb. induction a as [|ch a IH]; [reflexivity|].
  change (String ch a +:+ b) with (String ch (a +:+ b)).
  cbn [endswith]. rewrite IH.
  replace (String.eqb (String ch (a +:+ b)) sep) with false; [done|].
  symmetry. apply String.eqb_neq. unfold sep. intros [= _ Hab].
  by apply append_eq_empty in Hab as [_ ?].
Qed.

Lemma startswith_nonempty s : startswith s sep = true -> s <> "".
Proof. by destruct s. Qed.

(** [join] with a final empty segment: the trailing separator. *)
Lemma join2_empty_r y :
  join2 y "" = if closed y then y else y +:+ sep.
Proof.
  unfold join2, closed. change (startswith "" sep) with false. cbv iota.
  destruct (_ || _); by rewrite ?append_empty_r.
Qed.

Lemma join2_unfold y x :
  join2 y x = if startswith x sep then x else join2 y "" +:+ x.
Proof.
  rewrite join2_empty_r. unfold join2, closed.
  destruct (startswith x sep); [done|].
  destruct (_ || _); [done|]. by rewrite append_assoc.
Qed.

Lemma closed_join2_empty y : closed (join2 y "") = true.
Proof.
  rewrite join2_empty_r. destruct (closed y) eqn:E; [done|].
  unfold closed. rewrite endswith_append by done. apply orb_true_r.
Qed.

Lemma join2_closed_empty c : closed c = true -> join2 c "" = c.
Proof. intros Hc. by rewrite join2_empty_r, Hc. Qed.

Lemma closed_nonempty_endswith c :
  closed c = true -> c <> "" -> endswith c sep = true.
Proof.
  unfold closed. intros Hc Hne. apply orb_true_iff in Hc as [Hc|Hc]; [|done].
  by apply String.eqb_eq in Hc.
Qed.

Lemma closed_append a c :
  closed a = true -> closed c = true -> closed (a +:+ c) = true.
Proof.
  intros Ha Hc. destruct (decide (c = "")) as [->|Hne].
  { by rewrite append_empty_r. }
  unfold closed. rewrite endswith_append by done.
  rewrite (closed_nonempty_endswith c) by done. apply orb_true_r.
Qed.

Lemma closed_join2 a c : closed c = true -> closed (join2 a c) = true.
Proof.
  intros Hc. rewrite join2_unfold. destruct (startswith c sep); [done|].
  apply closed_append; [apply closed_join2_empty|done].
Qed.

Lemma join2_join2_empty y x : join2 (join2 y "") x = join2 y x.
Proof.
  rewrite (join2_unfold (join2 y "")), (join2_unfold y x).
  by rewrite (join2_closed_empty (join2 y "")) by apply closed_join2_empty.
Qed.

(** The segment accumulated on the way up can be joined last. *)
Lemma join2_shift a b x :
  join2 (join2 a (join2 b "")) x = join2 a (join2 b x).
Proof.
  rewrite (join2_unfold _ x), (join2_unfold b x).
  destruct (startswith x sep) eqn:Hx.
  { by rewrite (join2_unfold a x), Hx. }
  rewrite join2_closed_empty
    by (apply closed_join2, closed_join2_empty).
  rewrite (join2_unfold a (join2 b "")), (join2_unfold a (_ +:+ x)).
  destruct (startswith (join2 b "") sep) eqn:Hb.
  - by rewrite startswith_append, Hb by by apply startswith_nonempty.
  - destruct (join2 b "") as [|ch t] eqn:E.
    + change ("" +:+ x) with x. by rewrite Hx, append_empty_r.
    + rewrite startswith_append, Hb by done. apply append_assoc.
Qed.

Lemma closed_append_nonempty a c : c <> "" -> closed (a +:+ c) = closed c.
Proof.
  intros Hc. unfold closed. rewrite endswith_append, eqb_empty_append by done.
  apply String.eqb_neq in Hc. rewrite Hc. by rewrite andb_false_r.
Qed.

Lemma join2_empty_append a c :
  c <> "" -> join2 (a +:+ c) "" = a +:+ join2 c "".
Proof.
  intros Hc. rewrite !join2_empty_r, closed_append_nonempty by done.
  destruct (closed c); [done|apply append_assoc].
Qed.

Lemma join2_empty_comm g n :
  join2 g (join2 n "") = join2 (join2 g n) "".
Proof.
  destruct (decide (n = "")) as [->|Hn].
  { change (join2 "" "") with "". by rewrite join2_join2_empty. }
  assert (Hs : startswith (join2 n "") sep = startswith n sep).
  { rewrite join2_empty_r. destruct (closed n); [done|].
    by apply startswith_append. }
  rewrite (join2_unfold g (join2 n "")), Hs, (join2_unfold g n).
  destruct (startswith n sep); [done|].
  by rewrite join2_empty_append.
Qed.

Lemma join2_nonempty a c : c <> "" -> join2 a c <> "".
Proof.
  intros Hc. rewrite join2_unfold. destruct (startswith c sep); [done|].
  intros E. by apply append_eq_empty in E as [_ ?].
Qed.

End PathFacts.

(** * Path and root resolution *)

Section PathResolution.

Implicit Types (h : heap) (n : FileTree) (fuel d : nat).

(** The segment handed up the parent chain ends up joined to the path
    of the node it is handed to. *)
Lemma get_path_recursive_join fuel h self x :
  __get_path_recursive fuel h self x
  = (g ← get_path fuel h self; Some (join2 g x)).
Proof.
  unfold get_path. revert self x.
  induction fuel as [|fuel IH]; intros self x; [reflexivity|].
  cbn [__get_path_recursive]. destruct (h !! self) as [n|]; [|reflexivity].
  cbn. destruct (parent n) as [root|p].
  - cbn. by rewrite join2_join2_empty.
  - rewrite (IH p (join2 (name n) x)), (IH p (join2 (name n) "")).
    destruct (__get_path_recursive fuel h p "") as [g|]; [|reflexivity].
    cbn. by rewrite join2_shift.
Qed.

Lemma get_path_recursive_closed fuel h self x p :
  __get_path_recursive fuel h self x = Some p ->
  closed x = true ->
  closed p = true /\ (x <> "" -> p <> "").
Proof.
  revert self x. induction fuel as [|fuel IH]; intros self x; [done|].
  cbn [__get_path_recursive]. destruct (h !! self) as [n|]; [|done].
  cbn. destruct (parent n) as [root|q].
  - intros [= <-] Hx. split; [by apply closed_join2|apply join2_nonempty].
  - intros Hq Hx. apply IH in Hq as [Hp Hne]; [|by apply closed_join2].
    split; [done|]. intros Hxne. by apply Hne, join2_nonempty.
Qed.

Lemma get_path_recursive_mono fuel fuel' h self x p :
  __get_path_recursive fuel h self x = Some p -> fuel <= fuel' ->
  __get_path_recursive fuel' h self x = Some p.
Proof.
  revert fuel' self x. induction fuel as [|fuel IH]; intros fuel' self x; [done|].
  intros Hp Hle. destruct fuel' as [|fuel']; [lia|].
  cbn [__get_path_recursive] in *. destruct (h !! self) as [n|]; [|done].
  cbn in *. destruct (parent n); [done|]. apply IH; [done|lia].
Qed.

Lemma get_path_mono fuel fuel' h self p :
  get_path fuel h self = Some p -> fuel <= fuel' ->
  get_path fuel' h self = Some p.
Proof. apply get_path_recursive_mono. Qed.

Lemma get_root_mono fuel fuel' h self r :
  get_root fuel h self = Some r -> fuel <= fuel' ->
  get_root fuel' h self = Some r.
Proof.
  revert fuel' self. induction fuel as [|fuel IH]; intros fuel' self; [done|].
  intros Hr Hle. destruct fuel' as [|fuel']; [lia|].
  cbn [get_root] in *. destruct (h !! self) as [n|]; [|done].
  cbn in *. destruct (parent n); [done|]. apply IH; [done|lia].
Qed.

Lemma get_path_unfold fuel h self n :
  h !! self = Some n ->
  get_path (S fuel) h self
  = match parent n with
    | ParentStr root => Some (join root [name n; ""])
    | ParentNode p => g ← get_path fuel h p; Some (join g [name n; ""])
    end.
Proof.
  intros Hn. unfold get_path at 1. cbn [__get_path_recursive].
  rewrite Hn. cbn. destruct (parent n) as [root|p]; [done|].
  rewrite get_path_recursive_join.
  destruct (get_path fuel h p) as [g|]; [|reflexivity].
  cbn. by rewrite join2_empty_comm.
Qed.

Lemma get_path_closed fuel h self n p :
  h !! self = Some n -> get_path fuel h self = Some p ->
  closed p = true /\ (name n <> "" -> endswith p sep = true).
Proof.
  intros Hn Hp. split.
  { by eapply get_path_recursive_closed. }
  intros Hname. apply closed_nonempty_endswith.
  { by eapply get_path_recursive_closed. }
  destruct fuel as [|fuel]; [done|].
  unfold get_path in Hp. cbn [__get_path_recursive] in Hp.
  rewrite Hn in Hp. cbn in Hp. destruct (parent n) as [root|q].
  - injection Hp as <-. rewrite join2_empty_r.
    pose proof (join2_nonempty root (name n) Hname) as Hj.
    destruct (closed _); [done|].
    intros E. by apply append_eq_empty in E as [_ ?].
  - eapply get_path_recursive_closed; [done|apply closed_join2_empty|].
    rewrite join2_empty_r. destruct (closed _); [done|].
    intros E. by apply append_eq_empty in E as [_ ?].
Qed.

Lemma get_root_chain_aux h c r root d :
  chain h c r root d ->
  forall fuel, d < fuel ->
    get_root fuel h c = Some r /\ get_root_path fuel h c = Some root.
Proof.
  induction 1 as [r n root Hn Hp|c n p r root d Hn Hp _ IH];
    intros [|fuel] Hlt; try lia; cbn [get_root get_root_path];
    rewrite Hn; cbn; rewrite Hp; [done|]. apply IH. lia.
Qed.

Lemma chain_end h c r root d :
  chain h c r root d ->
  exists n, h !! r = Some n /\ parent n = ParentStr root.
Proof. induction 1; eauto. Qed.

(** C1 (as amended): [get_path()] of a node is the path-join of its
    parent's [get_path()] (of the raw root string, for a root node)
    with the node's name and a final empty segment, which leaves a
    trailing separator after the name; it has a result as soon as the
    parent's has one. *)
Theorem get_path_is_join_with_empty_segment fuel h self n :
  h !! self = Some n ->
  get_path (S fuel) h self
  = match parent n with
    | ParentStr root => Some (join root [name n; ""])
    | ParentNode p => g ← get_path fuel h p; Some (join g [name n; ""])
    end.
Proof. apply get_path_unfold. Qed.

(** C6: along any finite parent chain from [c] up to the root node
    [r], [c.get_root()] is [r], the node whose parent is the raw path
    string, [c.get_root_path()] is that string, and [r.get_root()] is
    [r] itself; a recursion depth above the length of the chain is
    enough for the calls to return. *)
Theorem get_root_of_chain h c r root d fuel :
  chain h c r root d -> d < fuel ->
  get_root fuel h c = Some r
  /\ get_root_path fuel h c = Some root
  /\ get_root fuel h r = Some r
  /\ exists n, h !! r = Some n /\ parent n = ParentStr root.
Proof.
  intros Hc Hlt. destruct (get_root_chain_aux _ _ _ _ _ Hc fuel Hlt) as [? ?].
  destruct (chain_end _ _ _ _ _ Hc) as (n & Hn & Hp).
  repeat split; [done|done| |by exists n].
  destruct fuel as [|fuel]; [lia|]. cbn. rewrite Hn. cbn. by rewrite Hp.
Qed.

End PathResolution.

(** * Running computations *)

Section Running.

Context `{FileSystem}.

Implicit Types (w : world) (h : heap) (n : FileTree).

Lemma bind_ret {A B} (m : M A) (k : A -> M B) w a w' :
  m w = Some (Ret a, w') -> (m ≫= k) w = k a w'.
Proof. unfold mbind, M_bind. by intros ->. Qed.

Lemma bind_raise {A B} (m : M A) (k : A -> M B) w e w' :
  m w = Some (Raise e, w') -> (m ≫= k) w = Some (Raise e, w').
Proof. unfold mbind, M_bind. by intros ->. Qed.

Lemma call_run {A} (f : heap -> option A) w a :
  f (w_heap w) = Some a -> call f w = Some (Ret a, w).
Proof. unfold call. by intros ->. Qed.

Lemma load_run a w n : w_heap w !! a = Some n -> load a w = Some (Ret n, w).
Proof. apply (call_run (fun h => h !! a)). Qed.

Lemma getattr_name_run a w n :
  w_heap w !! a = Some n -> getattr_name a w = Some (Ret (name n), w).
Proof.
  intros Hn. unfold getattr_name. by rewrite (bind_ret _ _ _ _ _ (load_run _ _ _ Hn)).
Qed.

Lemma getattr_files_run a w n r :
  w_heap w !! a = Some n -> files n = Some r ->
  getattr_files a w = Some (Ret r, w).
Proof.
  intros Hn Hr. unfold getattr_files.
  by rewrite (bind_ret _ _ _ _ _ (load_run _ _ _ Hn)), Hr.
Qed.

Lemma dict_items_run r w d :
  w_dicts w !! r = Some d -> dict_items r w = Some (Ret d, w).
Proof. unfold dict_items. by intros ->. Qed.

Lemma read_files_run a w n r d :
  w_heap w !! a = Some n -> files n = Some r -> w_dicts w !! r = Some d ->
  read_files a w = Some (Ret d, w).
Proof.
  intros Hn Hr Hd. unfold read_files.
  rewrite (bind_ret _ _ _ _ _ (getattr_files_run _ _ _ _ Hn Hr)).
  by apply dict_items_run.
Qed.

Lemma getattr_children_run a w n c :
  w_heap w !! a = Some n -> children n = Some c ->
  getattr_children a w = Some (Ret c, w).
Proof.
  intros Hn Hc. unfold getattr_children.
  by rewrite (bind_ret _ _ _ _ _ (load_run _ _ _ Hn)), Hc.
Qed.

Lemma update_run a f w n :
  w_heap w !! a = Some n ->
  update a f w
  = Some (Ret tt,
          World (<[a := f n]> (w_heap w)) (w_dicts w) (w_fs w) (w_warnings w)).
Proof. unfold update. by intros ->. Qed.

Lemma get_file_path_absent fuel self file_name w n r d :
  w_heap w !! self = Some n -> files n = Some r ->
  w_dicts w !! r = Some d ->
  dict_get d file_name = None ->
  get_file_path fuel self file_name w = Some (Ret None, w).
Proof.
  intros Hn Hr Hd Hf. unfold get_file_path.
  by rewrite (bind_ret _ _ _ _ _ (read_files_run _ _ _ _ _ Hn Hr Hd)), Hf.
Qed.

Lemma get_file_path_registered fuel self file_name w n r d content p :
  w_heap w !! self = Some n -> files n = Some r ->
  w_dicts w !! r = Some d ->
  dict_get d file_name = Some content ->
  get_path fuel (w_heap w) self = Some p ->
  get_file_path fuel self file_name w
  = Some (Ret (Some (join p [file_name])), w).
Proof.
  intros Hn Hr Hd Hf Hp. unfold get_file_path.
  rewrite (bind_ret _ _ _ _ _ (read_files_run _ _ _ _ _ Hn Hr Hd)), Hf.
  by rewrite (bind_ret _ _ _ _ _
                (call_run (fun h => get_path fuel h self) _ _ Hp)).
Qed.

(** C3: [create_file] on a name that is not in the node's file map
    raises the virtual-file-not-found error ([FileNotFoundError] with
    the message of the source) and returns the world as it was: no
    object and no part of the file system has changed. *)
Theorem create_file_absent_raises fuel self file_name encoding w n r d :
  w_heap w !! self = Some n -> files n = Some r ->
  w_dicts w !! r = Some d ->
  dict_get d file_name = None ->
  create_file fuel self file_name encoding w
  = Some (Raise (FileNotFoundError
                   ("Virtual file " +:+ file_name
                    +:+ " not found from node " +:+ name n)), w).
Proof.
  intros Hn Hr Hd Hf. unfold create_file.
  rewrite (bind_ret _ _ _ _ _
             (get_file_path_absent fuel _ _ _ _ _ _ Hn Hr Hd Hf)).
  by rewrite (bind_ret _ _ _ _ _ (getattr_name_run _ _ _ Hn)).
Qed.

(** C4: when the write of a registered file fails with an error [e],
    [create_file] raises [PathNotExists], built from the message that
    names the node's path and from [e] itself, so the original error
    is carried by the raised one; the file system is left as the
    failed write left it. *)
Theorem create_file_write_failure_wraps fuel self file_name encoding
    h ds fs ws n r d content p e fs' :
  h !! self = Some n -> files n = Some r -> ds !! r = Some d ->
  dict_get d file_name = Some content ->
  get_path fuel h self = Some p ->
  join p [file_name] <> "" ->
  os_open_write (join p [file_name]) encoding content fs = (Some e, fs') ->
  create_file fuel self file_name encoding (World h ds fs ws)
  = Some (Raise (PathNotExists ("Maybe path " +:+ p +:+ " not exists") e),
          World h ds fs' ws).
Proof.
  intros Hn Hr Hd Hf Hp Hne Hw. unfold create_file.
  rewrite (bind_ret _ _ _ _ _
    (get_file_path_registered fuel self file_name (World h ds fs ws)
       _ _ _ _ _ Hn Hr Hd Hf Hp)).
  destruct (join p [file_name]) as [|ch path] eqn:Hj; [done|].
  unfold try_except.
  rewrite (bind_ret _ _ _ _ _
    (read_files_run self (World h ds fs ws) _ _ _ Hn Hr Hd)), Hf.
  unfold open_write, lift_os. cbn [w_fs w_heap w_dicts w_warnings]. rewrite Hw.
  by rewrite (bind_ret _ _ _ _ _
    (call_run (fun h => get_path fuel h self) (World h ds fs' ws) _ Hp)).
Qed.

(** C10 (as amended): [get_path()] is the empty string or ends with
    the separator, and ends with the separator whenever the node's
    name is not empty; [get_file_path(name)] of a registered file is
    [get_path()] directly followed by [name] (and [name] alone when
    it starts with the separator), so the join adds no separator. *)
Theorem get_path_trailing_separator fuel h self n p :
  h !! self = Some n -> get_path fuel h self = Some p ->
  (p = "" \/ endswith p sep = true)
  /\ (name n <> "" -> endswith p sep = true)
  /\ forall r d file_name content ds fs ws,
      files n = Some r -> ds !! r = Some d ->
      dict_get d file_name = Some content ->
      get_file_path fuel self file_name (World h ds fs ws)
      = Some (Ret (Some (if startswith file_name sep then file_name
                         else p +:+ file_name)),
              World h ds fs ws).
Proof.
  intros Hn Hp. destruct (get_path_closed _ _ _ _ _ Hn Hp) as [Hc He].
  split; [|split; [done|]].
  - destruct (decide (p = "")); [by left|right].
    by apply closed_nonempty_endswith.
  - intros r d file_name content ds fs ws Hr Hd Hf.
    rewrite (get_file_path_registered fuel self file_name (World h ds fs ws)
               _ _ _ _ _ Hn Hr Hd Hf Hp).
    cbn [join fold_left]. by rewrite join2_unfold, join2_closed_empty.
Qed.

End Running.

(** * Mutation: [add_file] and [add_child] *)

Section Dictionaries.

Context {V : Type}.
Implicit Types (d : dict V) (k : string) (v : V).

Lemma dict_get_set d k v k' :
  dict_get (dict_set d k v) k'
  = if String.eqb k k' then Some v else dict_get d k'.
Proof.
  induction d as [|[k0 v0] d IH]; cbn.
  { by destruct (String.eqb k k'). }
  destruct (String.eqb_spec k0 k) as [->|Hk0]; cbn.
  - by destruct (String.eqb k k').
  - rewrite IH. destruct (String.eqb_spec k0 k') as [->|]; [|done].
    by destruct (String.eqb_spec k k') as [->|].
Qed.




End Dictionaries.

Section Mutation.

Context `{FileSystem}.

Implicit Types (w : world) (h : heap) (n : FileTree).

Lemma first_repeated_None seen names :
  first_repeated seen names = None
  <-> NoDup names /\ forall k, k ∈ names -> k ∉ seen.
Proof.
  revert seen. induction names as [|k names IH]; intros seen; cbn.
  { split; [intros _|done]. split; [constructor|]. intros k Hk.
    by apply elem_of_nil in Hk. }
  case_bool_decide as Hk.
  - split; [done|]. intros [_ Hall]. exfalso. apply (Hall k); [|done].
    by apply elem_of_cons; left.
  - rewrite IH, NoDup_cons. split.
    + intros [Hnd Hall]. split; [split; [|done]|].
      * intros Hin. apply (Hall k Hin). by apply elem_of_cons; left.
      * intros k' Hk'. apply elem_of_cons in Hk' as [->|Hk']; [done|].
        intros Hs. apply (Hall k' Hk'). by apply elem_of_cons; right.
    + intros [[Hnin Hnd] Hall]. split; [done|]. intros k' Hk' Hs.
      apply elem_of_cons in Hs as [->|Hs]; [done|].
      apply (Hall k'); [by apply elem_of_cons; right|done].
Qed.

Lemma kwargs_ok_checks kvs :
  kwargs_ok kvs
  <-> first_repeated [] (dict_keys kvs) = None /\ "self" ∉ dict_keys kvs.
Proof.
  unfold kwargs_ok. rewrite first_repeated_None. split.
  - intros [Hnd Hs]. split; [split; [done|]|done].
    intros k _ Hk. by apply elem_of_nil in Hk.
  - by intros [[Hnd _] Hs].
Qed.

(** The two checks, as computed. *)
Lemma kwargs_ok_checked kvs :
  first_repeated [] (dict_keys kvs) = None ->
  bool_decide ("self" ∈ dict_keys kvs) = false ->
  kwargs_ok kvs.
Proof.
  intros Hrep Hself. apply kwargs_ok_checks. split; [done|].
  by apply bool_decide_eq_false in Hself.
Qed.

(** The assignments of the body of [add_file], into the dict [r]. *)
Lemma add_file_body_run self kvs h fs ws n r :
  h !! self = Some n -> files n = Some r ->
  forall ds d, ds !! r = Some d ->
    for_each kvs
      (fun '(name, content) =>
         r ← getattr_files self; dict_setitem r name content)
      (World h ds fs ws)
    = Some (Ret tt, World h (<[r := assign_all kvs d]> ds) fs ws).
Proof.
  intros Hn Hr. induction kvs as [|[k v] kvs IH]; intros ds d Hd.
  { cbn. by rewrite list_insert_id. }
  cbn [for_each].
  erewrite bind_ret; cycle 1.
  { erewrite bind_ret by by eapply getattr_files_run.
    unfold dict_setitem. cbn [w_dicts]. by rewrite Hd. }
  cbn [w_heap w_dicts w_fs w_warnings].
  erewrite (IH _ (dict_set d k v)); cycle 1.
  { apply list_lookup_insert_eq. by eapply lookup_lt_Some. }
  by rewrite list_insert_insert_eq.
Qed.

Lemma add_file_run self kvs h ds fs ws n r d :
  h !! self = Some n -> files n = Some r -> ds !! r = Some d ->
  kwargs_ok kvs ->
  add_file self kvs (World h ds fs ws)
  = Some (Ret tt, World h (<[r := assign_all kvs d]> ds) fs ws).
Proof.
  intros Hn Hr Hd Hok. apply kwargs_ok_checks in Hok as [Hrep Hself].
  unfold add_file. rewrite Hrep, bool_decide_eq_false_2 by done.
  by eapply add_file_body_run.
Qed.




(** C9: [parent.add_child(n)] for an existing node [n] rewrites the
    parent link of [n] and enters [n] under its name in the children
    of the new parent; every other object, the previous parent of [n]
    with its children dict among them, is left as it was, and
    [n.get_path()] is from then on computed through the new parent. *)
Theorem add_child_relocates fuel self c h ds fs ws np cs nc :
  h !! self = Some np -> children np = Some cs ->
  h !! c = Some nc -> c <> self ->
  exists h',
    add_child fuel self [ChildNode c] (World h ds fs ws)
    = Some (Ret tt, World h' ds fs ws)
    /\ h' !! c = Some (set_parent (ParentNode self) nc)
    /\ h' !! self = Some (set_children (dict_set cs (name nc) c) np)
    /\ (forall a, a <> c -> a <> self -> h' !! a = h !! a)
    /\ (forall q nq,
          parent nc = ParentNode q -> q <> self -> q <> c ->
          h !! q = Some nq -> h' !! q = Some nq)
    /\ (forall fuel',
          get_path (S fuel') h' c
          = (g ← get_path fuel' h' self; Some (join g [name nc; ""]))).
Proof.
  intros Hp Hcs Hc Hne.
  pose proof (lookup_lt_Some _ _ _ Hp) as Hlp.
  pose proof (lookup_lt_Some _ _ _ Hc) as Hlc.
  set (h1 := <[c := set_parent (ParentNode self) nc]> h).
  set (h2 := <[self := set_children (dict_set cs (name nc) c) np]> h1).
  assert (H1c : h1 !! c = Some (set_parent (ParentNode self) nc)).
  { by apply list_lookup_insert_eq. }
  assert (H1p : h1 !! self = Some np).
  { unfold h1. by rewrite list_lookup_insert_ne. }
  assert (H2c : h2 !! c = Some (set_parent (ParentNode self) nc)).
  { unfold h2. by rewrite list_lookup_insert_ne. }
  assert (Hframe : forall a, a <> c -> a <> self -> h2 !! a = h !! a).
  { intros a Hac Hap. unfold h2, h1. by rewrite !list_lookup_insert_ne. }
  exists h2. split; [|split; [done|split; [|split; [done|split]]]].
  - unfold add_child, add_child_with. cbn [for_each].
    erewrite bind_ret; [reflexivity|].
    erewrite bind_ret by by apply update_run.
    cbn [w_heap w_fs w_warnings]. fold h1.
    erewrite bind_ret by by eapply getattr_children_run.
    erewrite bind_ret by by eapply getattr_name_run.
    by erewrite update_run.
  - unfold h2. apply list_lookup_insert_eq.
    unfold h1. by rewrite length_insert.
  - intros q nq _ Hq1 Hq2 Hq. by rewrite Hframe.
  - intros fuel'. by rewrite (get_path_unfold fuel' h2 c _ H2c).
Qed.

End Mutation.

(** * Materialisation: [create_file], [mkdir], [mkTree] *)

Section Materialisation.

Context `{FileSystem}.

Implicit Types (w : world) (h : heap) (n : FileTree) (fs : FS).

Lemma bind_inv {A B} (m : M A) (k : A -> M B) w r w' :
  (m ≫= k) w = Some (r, w') ->
  (exists e, m w = Some (Raise e, w') /\ r = Raise e)
  \/ (exists a w1, m w = Some (Ret a, w1) /\ k a w1 = Some (r, w')).
Proof.
  unfold mbind, M_bind. destruct (m w) as [[[a|e] w1]|]; [|intros [= <- <-]|done].
  - intros Hk. right. eauto.
  - left. eauto.
Qed.

Lemma for_each_app {A} (l1 l2 : list A) (body : A -> M unit) w :
  for_each (l1 ++ l2) body w = (for_each l1 body;; for_each l2 body) w.
Proof.
  revert w. induction l1 as [|x l1 IH]; intros w; [done|].
  cbn [app for_each]. unfold mbind, M_bind.
  destruct (body x w) as [[[[]|e] w1]|]; [|done|done].
  by rewrite IH.
Qed.

Lemma mkdir_call_run p h ds fs ws :
  mkdir_call p (World h ds fs ws)
  = Some (match (os_mkdir p fs).1 with
          | None => Ret tt
          | Some e => Raise e
          end, World h ds (os_mkdir p fs).2 ws).
Proof. unfold mkdir_call, lift_os. cbn. by destruct (os_mkdir p fs). Qed.

(** What [create_file] does does not depend on the depth allowed for
    the path computation, once that depth is enough; it returns, and
    leaves the objects alone. *)
Lemma create_file_stable fuel self file_name encoding h ds fs ws n rf d p :
  h !! self = Some n -> files n = Some rf -> ds !! rf = Some d ->
  get_path fuel h self = Some p ->
  exists r fs',
    forall fuel', fuel <= fuel' ->
      create_file fuel' self file_name encoding (World h ds fs ws)
      = Some (r, World h ds fs' ws).
Proof.
  intros Hn Hrf Hd Hp.
  destruct (dict_get d file_name) as [content|] eqn:Hf.
  - destruct (join p [file_name]) as [|ch path] eqn:Hj.
    + eexists _, fs. intros fuel' Hle. unfold create_file.
      erewrite bind_ret; cycle 1.
      { eapply (get_file_path_registered fuel'); [done..|].
        by eapply get_path_mono. }
      rewrite Hj.
      by erewrite bind_ret by by apply getattr_name_run.
    + destruct (os_open_write (String ch path) encoding content fs)
        as [[e|] fs'] eqn:Hw.
      * eexists _, fs'. intros fuel' Hle. unfold create_file.
        erewrite bind_ret; cycle 1.
        { eapply (get_file_path_registered fuel'); [done..|].
          by eapply get_path_mono. }
        rewrite Hj. unfold try_except.
        erewrite bind_ret by by eapply read_files_run.
        rewrite Hf. unfold open_write, lift_os.
        cbn [w_fs w_heap w_dicts w_warnings]. rewrite Hw.
        erewrite bind_ret; [reflexivity|].
        apply (call_run (fun h => get_path fuel' h self)).
        by eapply get_path_mono.
      * eexists _, fs'. intros fuel' Hle. unfold create_file.
        erewrite bind_ret; cycle 1.
        { eapply (get_file_path_registered fuel'); [done..|].
          by eapply get_path_mono. }
        rewrite Hj. unfold try_except.
        erewrite bind_ret by by eapply read_files_run.
        rewrite Hf. unfold open_write, lift_os.
        cbn [w_fs w_heap w_dicts w_warnings]. by rewrite Hw.
  - eexists _, fs. intros fuel' _. unfold create_file.
    erewrite bind_ret by by eapply get_file_path_absent.
    cbv iota. by erewrite bind_ret by by apply getattr_name_run.
Qed.

(** The loop over the registered files is the run of the file actions. *)
Lemma files_loop_plan fuel self h ds n rf d p keys :
  h !! self = Some n -> files n = Some rf -> ds !! rf = Some d ->
  get_path fuel h self = Some p ->
  forall fs ws, exists r fs',
    forall fuel', fuel <= fuel' ->
      for_each keys (fun k => create_file fuel self k "utf-8") (World h ds fs ws)
      = Some (r, World h ds fs' ws)
      /\ for_each (map (CreateFile self) keys) (perform fuel') (World h ds fs ws)
         = Some (r, World h ds fs' ws).
Proof.
  intros Hn Hrf Hd Hp. induction keys as [|k keys IH]; intros fs ws.
  { exists (Ret tt), fs. done. }
  destruct (create_file_stable fuel self k "utf-8" h ds fs ws n rf d p
              Hn Hrf Hd Hp)
    as ([[]|e] & fs1 & Hk).
  - destruct (IH fs1 ws) as (r & fs' & Hrest). exists r, fs'.
    intros fuel' Hle. cbn [map for_each perform].
    erewrite !bind_ret by (apply Hk; lia || done). apply Hrest, Hle.
  - exists (Raise e), fs1. intros fuel' Hle. cbn [map for_each perform].
    by erewrite !bind_raise by (apply Hk; lia || done).
Qed.

(** A plan found within some depth is found within any greater one. *)
Lemma mkTree_plan_mono h ds fuel :
  forall fuel' self acts,
    mkTree_plan fuel h ds self = Some acts -> fuel <= fuel' ->
    mkTree_plan fuel' h ds self = Some acts.
Proof.
  induction fuel as [|fuel IH]; intros fuel' self acts; [done|].
  intros Hplan Hle. destruct fuel' as [|fuel']; [lia|].
  cbn [mkTree_plan] in *.
  destruct (h !! self) as [n|] eqn:Hn; cbn [mbind option_bind] in *; [|done].
  destruct (get_path (S fuel) h self) as [p|] eqn:Hp;
    cbn [mbind option_bind] in *; [|done].
  rewrite (get_path_mono _ (S fuel') _ _ _ Hp) by lia. cbn [mbind option_bind].
  destruct (files n) as [rf|]; cbn [mbind option_bind] in *; [|done].
  destruct (ds !! rf) as [d|]; cbn [mbind option_bind] in *; [|done].
  destruct (children n) as [cs|]; cbn [mbind option_bind] in *; [|done].
  destruct (mapM (mkTree_plan fuel h ds) (dict_values cs)) as [below|] eqn:Hbelow;
    cbn [mbind option_bind] in *; [|done].
  assert (mapM (mkTree_plan fuel' h ds) (dict_values cs) = Some below) as ->; [|done].
  apply mapM_Some. apply mapM_Some in Hbelow.
  eapply Forall2_impl; [exact Hbelow|].
  intros c acts' Hc. apply IH; [done|lia].
Qed.

(** The recursive traversal is the run of the plan. *)
Lemma mkTree_rec_plan h ds fuel :
  forall self acts, mkTree_plan fuel h ds self = Some acts ->
  forall fs ws, exists r fs',
    forall fuel', fuel <= fuel' ->
      __mkTree__ fuel self (World h ds fs ws) = Some (r, World h ds fs' ws)
      /\ for_each acts (perform fuel') (World h ds fs ws)
         = Some (r, World h ds fs' ws).
Proof.
  induction fuel as [|fuel IH]; intros self acts; cbn [mkTree_plan]; [done|].
  destruct (h !! self) as [n|] eqn:Hn; cbn [mbind option_bind]; [|done].
  destruct (get_path (S fuel) h self) as [p|] eqn:Hp;
    cbn [mbind option_bind]; [|done].
  destruct (files n) as [rf|] eqn:Hrf; cbn [mbind option_bind]; [|done].
  destruct (ds !! rf) as [d|] eqn:Hd; cbn [mbind option_bind]; [|done].
  destruct (children n) as [cs|] eqn:Hcs; cbn [mbind option_bind]; [|done].
  destruct (mapM _ _) as [below|] eqn:Hbelow; cbn [mbind option_bind]; [|done].
  intros [= <-] fs ws. apply mapM_Some in Hbelow.
  (* the children: one sub-plan each *)
  assert (Hchildren : forall fs ws, exists r fs',
    forall fuel', fuel <= fuel' ->
      for_each (dict_values cs) (__mkTree__ fuel) (World h ds fs ws)
      = Some (r, World h ds fs' ws)
      /\ for_each (concat below) (perform fuel') (World h ds fs ws)
         = Some (r, World h ds fs' ws)).
  { clear -IH Hbelow. induction Hbelow as [|c acts cs' below' Hc _ IHl];
      intros fs ws.
    { exists (Ret tt), fs. done. }
    destruct (IH c acts Hc fs ws) as ([[]|e] & fs1 & Hone).
    - destruct (IHl fs1 ws) as (r & fs' & Hrest). exists r, fs'.
      intros fuel' Hle. destruct (Hone fuel' Hle) as [H1 H2].
      destruct (Hrest fuel' Hle) as [H3 H4]. split.
      + cbn [for_each]. by erewrite bind_ret.
      + cbn [concat]. rewrite for_each_app. by erewrite bind_ret.
    - exists (Raise e), fs1. intros fuel' Hle.
      destruct (Hone fuel' Hle) as [H1 H2]. split.
      + cbn [for_each]. by erewrite bind_raise.
      + cbn [concat]. rewrite for_each_app. by erewrite bind_raise. }
  (* the node itself *)
  destruct (os_mkdir p fs) as [[e|] fs1] eqn:Hmk.
  { exists (Raise e), fs1. intros fuel' Hle. cbn [__mkTree__ for_each perform].
    erewrite bind_ret
      by by apply (call_run (fun h => get_path (S fuel) h self)).
    erewrite !bind_raise; [done|..]; by rewrite mkdir_call_run, Hmk. }
  destruct (files_loop_plan (S fuel) self h ds n rf d p (dict_keys d)
              Hn Hrf Hd Hp fs1 ws)
    as ([[]|e] & fs2 & Hfiles).
  - destruct (Hchildren fs2 ws) as (r & fs' & Hrest). exists r, fs'.
    intros fuel' Hle. destruct (Hfiles fuel' Hle) as [H1 H2].
    destruct (Hrest fuel' ltac:(lia)) as [H3 H4]. split.
    + cbn [__mkTree__].
      erewrite bind_ret
        by by apply (call_run (fun h => get_path (S fuel) h self)).
      erewrite bind_ret by by rewrite mkdir_call_run, Hmk.
      erewrite bind_ret by by eapply read_files_run.
      erewrite bind_ret by done.
      by erewrite bind_ret by by eapply getattr_children_run.
    + cbn [for_each perform].
      erewrite bind_ret by by rewrite mkdir_call_run, Hmk.
      rewrite for_each_app. by erewrite bind_ret.
  - exists (Raise e), fs2. intros fuel' Hle.
    destruct (Hfiles fuel' Hle) as [H1 H2]. split.
    + cbn [__mkTree__].
      erewrite bind_ret
        by by apply (call_run (fun h => get_path (S fuel) h self)).
      erewrite bind_ret by by rewrite mkdir_call_run, Hmk.
      erewrite bind_ret by by eapply read_files_run.
      by erewrite bind_raise.
    + cbn [for_each perform].
      erewrite bind_ret by by rewrite mkdir_call_run, Hmk.
      rewrite for_each_app. by erewrite bind_raise.
Qed.

(** A run stops at the first action that raises. *)
Lemma for_each_stops {A} (body : A -> M unit) done x rest w w1 e w2 :
  for_each done body w = Some (Ret tt, w1) ->
  body x w1 = Some (Raise e, w2) ->
  for_each (done ++ x :: rest) body w = Some (Raise e, w2).
Proof.
  intros Hdone Hx. rewrite for_each_app.
  erewrite bind_ret by done. cbn [for_each]. by erewrite bind_raise.
Qed.

(** C7: [mkTree()], on any node, goes to the root and carries out the
    pre-order plan of the tree: per node the directory, then each
    registered file through [create_file], then the children.  It
    returns what the run of the plan returns, at the recursion depth
    that reaches the whole tree and at any greater one; when an action
    raises after the ones before it succeeded, [mkTree()] raises that
    error and the file system is the one that action left: nothing is
    undone, nothing further is done. *)
Theorem mkTree_follows_plan fuel h ds self r acts fs ws :
  get_root fuel h self = Some r ->
  mkTree_plan fuel h ds r = Some acts ->
  exists res fs',
    mkTree fuel self (World h ds fs ws) = Some (res, World h ds fs' ws)
    /\ run_plan fuel acts (World h ds fs ws) = Some (res, World h ds fs' ws)
    /\ (forall fuel', fuel <= fuel' ->
          mkTree fuel' self (World h ds fs ws) = Some (res, World h ds fs' ws))
    /\ forall done a rest fs1 e fs2,
         acts = done ++ a :: rest ->
         run_plan fuel done (World h ds fs ws) = Some (Ret tt, World h ds fs1 ws) ->
         perform fuel a (World h ds fs1 ws) = Some (Raise e, World h ds fs2 ws) ->
         res = Raise e /\ fs' = fs2.
Proof.
  intros Hr Hplan.
  destruct (mkTree_rec_plan h ds fuel r acts Hplan fs ws) as (res & fs' & Hrun).
  destruct (Hrun fuel ltac:(lia)) as [H1 H2].
  assert (Hmore : forall fuel', fuel <= fuel' ->
    mkTree fuel' self (World h ds fs ws) = Some (res, World h ds fs' ws)).
  { intros fuel' Hle.
    pose proof (mkTree_plan_mono h ds fuel fuel' r acts Hplan Hle) as Hplan'.
    destruct (mkTree_rec_plan h ds fuel' r acts Hplan' fs ws)
      as (res' & fs'' & Hrun').
    destruct (Hrun' fuel' ltac:(lia)) as [H1' H2'].
    destruct (Hrun fuel' Hle) as [_ H3]. rewrite H3 in H2'.
    injection H2' as <- <-. unfold mkTree.
    erewrite bind_ret; [exact H1'|].
    apply (call_run (fun h => get_root fuel' h self)).
    by eapply get_root_mono. }
  exists res, fs'. split; [by apply Hmore|]. split; [done|]. split; [done|].
  intros done a rest fs1 e fs2 -> Hdone Ha.
  unfold run_plan in *.
  rewrite (for_each_stops _ _ _ _ _ _ _ _ Hdone Ha) in H2.
  by injection H2 as <- <-.
Qed.

End Materialisation.

(** * Directories only: [mkdir] twice *)

Section MkdirTwice.

Context `{FileSystemLaws}.

Implicit Types (w : world) (h : heap) (n : FileTree) (fs : FS).

Lemma call_inv {A} (f : heap -> option A) w r w' :
  call f w = Some (r, w') ->
  w' = w /\ exists a, r = Ret a /\ f (w_heap w) = Some a.
Proof.
  unfold call. destruct (f (w_heap w)) as [a|]; [|done].
  intros [= <- <-]. eauto.
Qed.

Lemma getattr_children_inv self w r w' :
  getattr_children self w = Some (r, w') -> w' = w.
Proof.
  unfold getattr_children. intros Hrun.
  apply bind_inv in Hrun as [(e & Hl & _)|(n & w1 & Hl & Hrun)];
    apply call_inv in Hl as [-> (a & Ha & _)]; [done|].
  destruct (children n); by injection Hrun as _ <-.
Qed.

(** A path that exists is still there after [os.mkdir], whether the
    call succeeds or fails. *)
Lemma mkdir_call_keeps p h ds fs ws r w' :
  mkdir_call p (World h ds fs ws) = Some (r, w') ->
  exists fs', w' = World h ds fs' ws
    /\ forall q, os_path_exists q fs = true -> os_path_exists q fs' = true.
Proof.
  rewrite mkdir_call_run. intros [= _ <-]. eexists. split; [done|].
  intros q Hq. eapply mkdir_keeps; [done|]. apply surjective_pairing.
Qed.

Lemma for_each_keeps {A} (body : A -> M unit) h ds ws (l : list A) :
  (forall x fs r w',
     body x (World h ds fs ws) = Some (r, w') ->
     exists fs', w' = World h ds fs' ws
       /\ forall q, os_path_exists q fs = true -> os_path_exists q fs' = true) ->
  forall fs r w',
    for_each l body (World h ds fs ws) = Some (r, w') ->
    exists fs', w' = World h ds fs' ws
      /\ forall q, os_path_exists q fs = true -> os_path_exists q fs' = true.
Proof.
  intros Hbody. induction l as [|x l IHl]; intros fs r w' Hrun.
  { injection Hrun as <- <-. eauto. }
  cbn [for_each] in Hrun.
  apply bind_inv in Hrun as [(e & Hx & ->)|([] & w1 & Hx & Hrun)];
    apply Hbody in Hx as (fs1 & -> & Hfs1); [eauto|].
  apply IHl in Hrun as (fs2 & -> & Hfs2). eauto.
Qed.

(** The traversal of [__mkdir__] leaves the objects alone and removes
    no path from the file system. *)
Lemma mkdir_rec_keeps fuel :
  forall self h ds ws fs r w',
    __mkdir__ fuel self (World h ds fs ws) = Some (r, w') ->
    exists fs', w' = World h ds fs' ws
      /\ forall q, os_path_exists q fs = true -> os_path_exists q fs' = true.
Proof.
  induction fuel as [|fuel IH]; intros self h ds ws fs r w'; [done|].
  cbn [__mkdir__]. intros Hrun.
  apply bind_inv in Hrun as [(e & Hcall & _)|(p & w1 & Hcall & Hrun)];
    apply call_inv in Hcall as [-> (a & Ha & _)]; [done|].
  apply bind_inv in Hrun as [(e & Hmk & ->)|([] & w1 & Hmk & Hrun)];
    apply mkdir_call_keeps in Hmk as (fs1 & -> & Hfs1); [eauto|].
  apply bind_inv in Hrun as [(e & Hget & ->)|(cs & w1 & Hget & Hrun)];
    pose proof (getattr_children_inv _ _ _ _ Hget) as ->; [eauto|].
  apply (for_each_keeps _ _ _ _ _ (fun c => IH c h ds ws)) in Hrun
    as (fs2 & -> & Hfs2).
  eauto.
Qed.

(** Once the directory of the root has been created, a call of
    [mkdir()] fails at its first step, whatever the first call went on
    to do. *)
Lemma mkdir_after_root_created fuel self h ds fs ws r p fs0 res w1 :
  get_root fuel h self = Some r -> get_path fuel h r = Some p ->
  os_mkdir p fs = (None, fs0) ->
  mkdir fuel self (World h ds fs ws) = Some (res, w1) ->
  mkdir fuel self w1 = Some (Raise (FileExistsError p), w1).
Proof.
  intros Hr Hp Hmk Hrun. unfold mkdir in Hrun.
  erewrite bind_ret in Hrun
    by by apply (call_run (fun h => get_root fuel h self)).
  assert (Hexists : os_path_exists p fs0 = true) by by eapply mkdir_creates.
  destruct fuel as [|fuel]; [done|].
  cbn [__mkdir__] in Hrun.
  erewrite bind_ret in Hrun
    by by apply (call_run (fun h => get_path (S fuel) h r)).
  erewrite bind_ret in Hrun by by rewrite mkdir_call_run, Hmk.
  cbn [snd] in Hrun.
  assert (exists fs1, w1 = World h ds fs1 ws
            /\ os_path_exists p fs1 = true) as (fs1 & -> & Hfs1).
  { apply bind_inv in Hrun as [(e & Hget & ->)|(cs & w2 & Hget & Hrun)];
      pose proof (getattr_children_inv _ _ _ _ Hget) as ->; [eauto|].
    apply (for_each_keeps _ _ _ _ _ (fun c => mkdir_rec_keeps fuel c h ds ws))
      in Hrun as (fs2 & -> & Hfs2).
    eauto. }
  unfold mkdir.
  erewrite bind_ret by by apply (call_run (fun h => get_root (S fuel) h self)).
  cbn [__mkdir__].
  erewrite bind_ret by by apply (call_run (fun h => get_path (S fuel) h r)).
  erewrite bind_raise; [done|].
  by rewrite mkdir_call_run, (mkdir_existing p fs1 Hfs1).
Qed.

(** C8: when a call of [mkdir()] has returned, having created the
    directories of the tree, a second call on the same tree raises
    [FileExistsError] for the directory of the root and changes
    nothing: directory creation has no "exists, skip" handling. *)
Theorem mkdir_twice_fails fuel self w w1 :
  mkdir fuel self w = Some (Ret tt, w1) ->
  exists r p,
    get_root fuel (w_heap w) self = Some r
    /\ get_path fuel (w_heap w) r = Some p
    /\ mkdir fuel self w1 = Some (Raise (FileExistsError p), w1).
Proof.
  destruct w as [h ds fs ws]. intros Hrun. pose proof Hrun as Hrun0.
  unfold mkdir in Hrun.
  apply bind_inv in Hrun as [(e & _ & [=])|(r & w0 & Hcall & Hrun)].
  unfold call in Hcall. cbn [w_heap] in Hcall.
  destruct (get_root fuel h self) as [r'|] eqn:Hr; [|done].
  injection Hcall as -> <-.
  destruct fuel as [|fuel]; [done|]. cbn [__mkdir__] in Hrun.
  apply bind_inv in Hrun as [(e & _ & [=])|(p & w0 & Hcall & Hrun)].
  unfold call in Hcall. cbn [w_heap] in Hcall.
  destruct (get_path (S fuel) h r) as [p'|] eqn:Hp; [|done].
  injection Hcall as -> <-.
  apply bind_inv in Hrun as [(e & _ & [=])|([] & w0 & Hmk & _)].
  rewrite mkdir_call_run in Hmk.
  destruct (os_mkdir p fs) as [[e|] fs0] eqn:Hos; [done|].
  exists r, p. cbn [w_heap]. split; [done|split; [done|]].
  by eapply mkdir_after_root_created.
Qed.

End MkdirTwice.

(** * Construction with a [children] argument *)

Section Construction.

Context `{FileSystem}.

Implicit Types (w : world) (h : heap).

Lemma alloc_run n w :
  alloc n w
  = Some (Ret (length (w_heap w)),
          World (w_heap w ++ [n]) (w_dicts w) (w_fs w) (w_warnings w)).
Proof. done. Qed.

(** The constructor call that [add_child] makes for a bare name. *)
Lemma init_leaf_run fuel c p h ds fs ws :
  __init__ (S fuel) c (ParentNode p) None None (World h ds fs ws)
  = Some (Ret (length h),
          World (h ++ [mkFileTree (ParentNode p) c (Some [])
                              (Some (length ds))])
                (ds ++ [[]]) fs ws).
Proof.
  cbn [__init__].
  erewrite bind_ret by done.
  erewrite bind_ret by apply alloc_run.
  cbn [w_heap w_dicts w_fs w_warnings].
  erewrite bind_ret; cycle 1.
  { erewrite update_run; [reflexivity|]. by apply list_lookup_middle. }
  cbn [w_heap w_dicts w_fs w_warnings].
  erewrite bind_ret by done.
  cbn [w_heap w_dicts w_fs w_warnings].
  erewrite bind_ret; cycle 1.
  { erewrite update_run; [reflexivity|]. cbn [w_heap].
    rewrite list_lookup_insert_eq; [done|]. rewrite length_app. cbn. lia. }
  cbn [w_heap w_dicts w_fs w_warnings].
  rewrite list_insert_insert_eq.
  replace (length h) with (length h + 0) at 2 by lia.
  by rewrite insert_app_r.
Qed.

(** The check of the root path only adds a warning. *)
Lemma root_check_run (parent : Parent) w :
  exists ws',
    (match parent with
     | ParentStr p =>
         ex ← path_exists p;
         if negb ex
         then warn ("Root node root path not exists: " +:+ p)
         else mret tt
     | ParentNode _ => mret tt
     end) w
    = Some (Ret tt, World (w_heap w) (w_dicts w) (w_fs w) ws').
Proof.
  destruct w as [h ds fs ws]. destruct parent as [p|q]; [|by eexists].
  unfold mbind, M_bind, path_exists. cbn.
  destruct (os_path_exists p fs); by eexists.
Qed.

Lemma init_with_bare_name_raises fuel name parent files c rest w :
  exists w',
    __init__ (S (S fuel)) name parent files
      (Some (ChildrenSeq (ChildName c :: rest))) w
    = Some (Raise (AttributeError
                     "'FileTree' object has no attribute 'children'"), w').
Proof.
  destruct (root_check_run parent w) as (ws' & Hcheck).
  eexists. cbn [__init__].
  erewrite bind_ret by exact Hcheck.
  erewrite bind_ret by apply alloc_run.
  cbn [w_heap w_dicts w_fs w_warnings].
  erewrite bind_raise; [reflexivity|].
  erewrite bind_ret by done.
  unfold add_child_with. cbn [for_each].
  erewrite bind_raise; [reflexivity|]. cbv beta iota.
  erewrite bind_ret by apply (init_leaf_run fuel).
  erewrite bind_raise; [reflexivity|].
  unfold getattr_children.
  erewrite bind_ret; cycle 1.
  { apply load_run. cbn [w_heap]. rewrite lookup_app_l.
    - by apply list_lookup_middle.
    - rewrite length_app. cbn. lia. }
  done.
Qed.

Lemma init_with_string_raises fuel name parent files ch s w :
  exists w',
    __init__ (S (S fuel)) name parent files
      (Some (ChildrenStr (String ch s))) w
    = Some (Raise (AttributeError
                     "'FileTree' object has no attribute 'children'"), w').
Proof.
  destruct (init_with_bare_name_raises fuel name parent files
              (String ch EmptyString)
              (map (fun ch => ChildName (String ch EmptyString))
                   (String.list_ascii_of_string s)) w) as (w' & Hw').
  exists w'. rewrite <- Hw'. reflexivity.
Qed.

Lemma init_with_node_raises fuel name parent files c w :
  exists msg w',
    __init__ (S fuel) name parent files (Some (ChildrenNode c)) w
    = Some (Raise (TypeError msg), w').
Proof.
  destruct (root_check_run parent w) as (ws' & Hcheck).
  eexists _, _. cbn [__init__].
  erewrite bind_ret by exact Hcheck.
  erewrite bind_ret by apply alloc_run.
  erewrite bind_raise; [reflexivity|].
  by erewrite bind_raise.
Qed.

(** C2: the code does not do what the claim says.  With a [children]
    argument that is not [None], [__init__] calls [add_child] before
    the [children] attribute of the new object exists, so the
    construction raises [AttributeError] at the first item (a string,
    which unpacks into one-character names, or a sequence that starts
    with a bare name), and [TypeError] when the argument is a node,
    which cannot be unpacked; no node is constructed. *)
Theorem init_with_children_raises fuel name parent files w :
  (forall ch s, exists w',
      __init__ (S (S fuel)) name parent files
        (Some (ChildrenStr (String ch s))) w
      = Some (Raise (AttributeError
                       "'FileTree' object has no attribute 'children'"), w'))
  /\ (forall c rest, exists w',
        __init__ (S (S fuel)) name parent files
          (Some (ChildrenSeq (ChildName c :: rest))) w
        = Some (Raise (AttributeError
                         "'FileTree' object has no attribute 'children'"), w'))
  /\ (forall c, exists msg w',
        __init__ (S (S fuel)) name parent files (Some (ChildrenNode c)) w
        = Some (Raise (TypeError msg), w')).
Proof.
  split; [|split].
  - intros ch s. apply init_with_string_raises.
  - intros c rest. apply init_with_bare_name_raises.
  - intros c. apply init_with_node_raises.
Qed.

End Construction.

(** * The small file system obeys the laws of directory creation *)

Section SimpleFSLaws.

Import SimpleFS.

Lemma is_dir_grows k k' ds rs :
  is_dir k (State ds rs) = true -> is_dir k (State (ds ++ [k']) rs) = true.
Proof.
  unfold is_dir. cbn [dirs]. rewrite !orb_true_iff, !bool_decide_eq_true.
  intros [[?|?]|?]; [by left; left|by left; right|right].
  apply elem_of_app. by left.
Qed.

Lemma is_dir_added k ds rs : is_dir k (State (ds ++ [k]) rs) = true.
Proof.
  unfold is_dir. cbn [dirs]. rewrite !orb_true_iff, !bool_decide_eq_true.
  right. apply elem_of_app. right. by apply list_elem_of_singleton.
Qed.

Lemma simple_fs_laws : @FileSystemLaws simple_fs.
Proof.
  split; cbn [os_mkdir os_path_exists simple_fs FS].
  - intros p fs fs'. unfold mkdir, path_exists.
    destruct (resolve p) as [k|]; [|done].
    destruct (is_dir k fs || is_file k fs); [done|].
    destruct (is_dir (removelast k) fs); [|done].
    intros [= <-]. destruct fs as [ds rs]. cbn [dirs regular].
    by rewrite is_dir_added.
  - intros p q fs r fs'. unfold mkdir, path_exists.
    destruct (resolve p) as [k|]; [|done]. intros Hp.
    destruct (resolve q) as [kq|]; [|by intros [= _ <-]].
    destruct (is_dir kq fs || is_file kq fs); [by intros [= _ <-]|].
    destruct (is_dir (removelast kq) fs); [|by intros [= _ <-]].
    intros [= _ <-]. destruct fs as [ds rs]. cbn [dirs regular].
    apply orb_true_iff in Hp as [Hp|Hp].
    + by rewrite is_dir_grows.
    + apply orb_true_iff. by right.
  - intros p fs. unfold mkdir, path_exists.
    destruct (resolve p) as [k|]; [|done]. intros Hp.
    replace (is_dir k fs || is_file k fs) with true; [done|].
    symmetry. apply orb_true_iff.
    apply orb_true_iff in Hp as [Hp|Hp]; [by left|right].
    by apply andb_true_iff in Hp as [? _].
Qed.

End SimpleFSLaws.

(** * The claims on the example trees *)

Section OnExamples.

Import Examples.

#[local] Existing Instance SimpleFS.simple_fs.
#[local] Existing Instance simple_fs_laws.

Lemma get_path_is_join_with_empty_segment_witness :
  test_heap !! 2 = Some folder3
  /\ get_path 3 test_heap 2
     = match parent folder3 with
       | ParentStr root => Some (join root [name folder3; ""])
       | ParentNode p =>
           g ← get_path 2 test_heap p; Some (join g [name folder3; ""])
       end.
Proof.
  split; [reflexivity|].
  apply (get_path_is_join_with_empty_segment 2 test_heap 2 folder3).
  reflexivity.
Defined.

(** C1, as stated, fails: [get_path()] of the root [test_folder] over
    [/srv] is [/srv/test_folder/], not the join [/srv/test_folder] of
    the root path with the name, and [get_path()] of its child is not
    the join of the parent's path with the child's name either. *)
Lemma get_path_is_not_plain_join :
  ~ (forall fuel h self n,
       h !! self = Some n ->
       get_path (S fuel) h self
       = match parent n with
         | ParentStr root => Some (join root [name n])
         | ParentNode p => g ← get_path fuel h p; Some (join g [name n])
         end)
  /\ get_path 1 test_heap 0 = Some "/srv/test_folder/"
  /\ join "/srv" ["test_folder"] = "/srv/test_folder"
  /\ get_path 2 test_heap 1 = Some "/srv/test_folder/test_folder2/"
  /\ join "/srv/test_folder/" ["test_folder2"]
     = "/srv/test_folder/test_folder2".
Proof.
  split; [|by vm_compute].
  intros Hall. specialize (Hall 0 test_heap 0 folder eq_refl).
  vm_compute in Hall. discriminate.
Qed.

Lemma get_root_of_chain_witness :
  chain test_heap 2 0 "/srv" 2 /\ 2 < 3
  /\ get_root 3 test_heap 2 = Some 0
  /\ get_root_path 3 test_heap 2 = Some "/srv"
  /\ get_root 3 test_heap 0 = Some 0
  /\ exists n, test_heap !! 0 = Some n /\ parent n = ParentStr "/srv".
Proof.
  assert (Hchain : chain test_heap 2 0 "/srv" 2).
  { eapply chain_step; [reflexivity..|].
    eapply chain_step; [reflexivity..|].
    eapply chain_root; reflexivity. }
  split; [exact Hchain|]. split; [lia|].
  apply (get_root_of_chain test_heap 2 0 "/srv" 2 3 Hchain). lia.
Defined.

Lemma create_file_absent_raises_witness :
  w_heap test_world !! 0 = Some folder
  /\ files folder = Some 0
  /\ w_dicts test_world !! 0 = Some [("test.txt", "Hello World!")]
  /\ dict_get [("test.txt", "Hello World!")] "missing.txt" = None
  /\ create_file 3 0 "missing.txt" "utf-8" test_world
     = Some (Raise (FileNotFoundError
                      ("Virtual file " +:+ "missing.txt"
                       +:+ " not found from node " +:+ name folder)),
             test_world).
Proof.
  repeat (split; [reflexivity|]).
  apply (create_file_absent_raises 3 0 "missing.txt" "utf-8" test_world
           folder 0 [("test.txt", "Hello World!")]); reflexivity.
Defined.

(** The directory of the node does not exist yet: the write fails. *)
Lemma create_file_write_failure_wraps_witness :
  test_heap !! 0 = Some folder
  /\ files folder = Some 0
  /\ test_dicts !! 0 = Some [("test.txt", "Hello World!")]
  /\ dict_get [("test.txt", "Hello World!")] "test.txt" = Some "Hello World!"
  /\ get_path 3 test_heap 0 = Some "/srv/test_folder/"
  /\ join "/srv/test_folder/" ["test.txt"] <> ""
  /\ SimpleFS.open_write (join "/srv/test_folder/" ["test.txt"]) "utf-8"
       "Hello World!" srv
     = (Some (FileNotFoundError "/srv/test_folder/test.txt"), srv)
  /\ create_file 3 0 "test.txt" "utf-8" test_world
     = Some (Raise (PathNotExists
                      ("Maybe path " +:+ "/srv/test_folder/" +:+ " not exists")
                      (FileNotFoundError "/srv/test_folder/test.txt")),
             test_world).
Proof.
  repeat (split; [by vm_compute|]).
  apply (@create_file_write_failure_wraps SimpleFS.simple_fs
           3 0 "test.txt" "utf-8" test_heap test_dicts
           srv [] folder 0 [("test.txt", "Hello World!")] "Hello World!"
           "/srv/test_folder/" (FileNotFoundError "/srv/test_folder/test.txt")
           srv); by vm_compute.
Defined.



(** The run of [test.py], over [/srv], builds the example tree. *)
Example test_py_builds_test_heap :
  (root ← __init__ 2 "test_folder" (ParentStr "/srv") None None;
   add_file root [("test.txt", "Hello World!")];;
   add_child 2 root [ChildName "test_folder2"];;
   folder2_node ← get_child root "test_folder2";
   match folder2_node with
   | Some folder2_node =>
       folder3_node ← __init__ 2 "test_folder3" (ParentStr "/srv") None None;
       add_child 2 folder2_node [ChildNode folder3_node];;
       add_file folder3_node [("test3.txt", "Hello World!")]
   | None => mret tt
   end) (@World SimpleFS.simple_fs [] [] srv [])
  = Some (Ret tt, test_world).
Proof. by vm_compute. Qed.

(** On the example tree, [mkTree()] writes the directories and the
    two files. *)
Example mkTree_writes_test_tree :
  mkTree 5 2 test_world
  = Some (Ret tt, @World SimpleFS.simple_fs test_heap test_dicts srv_with_tree []).
Proof. by vm_compute. Qed.

Lemma mkTree_follows_plan_witness :
  get_root 5 test_heap 2 = Some 0
  /\ mkTree_plan 5 test_heap test_dicts 0
     = Some [MakeDirectory "/srv/test_folder/";
             CreateFile 0 "test.txt";
             MakeDirectory "/srv/test_folder/test_folder2/";
             MakeDirectory "/srv/test_folder/test_folder2/test_folder3/";
             CreateFile 2 "test3.txt"]
  /\ exists res fs',
      mkTree 5 2 test_world
      = Some (res, @World SimpleFS.simple_fs test_heap test_dicts fs' [])
      /\ run_plan 5
           [MakeDirectory "/srv/test_folder/";
            CreateFile 0 "test.txt";
            MakeDirectory "/srv/test_folder/test_folder2/";
            MakeDirectory "/srv/test_folder/test_folder2/test_folder3/";
            CreateFile 2 "test3.txt"] test_world
         = Some (res, @World SimpleFS.simple_fs test_heap test_dicts fs' [])
      /\ (forall fuel', 5 <= fuel' ->
            mkTree fuel' 2 test_world
            = Some (res, @World SimpleFS.simple_fs test_heap test_dicts fs' []))
      /\ forall done a rest fs1 e fs2,
           [MakeDirectory "/srv/test_folder/";
            CreateFile 0 "test.txt";
            MakeDirectory "/srv/test_folder/test_folder2/";
            MakeDirectory "/srv/test_folder/test_folder2/test_folder3/";
            CreateFile 2 "test3.txt"] = done ++ a :: rest ->
           run_plan 5 done test_world
           = Some (Ret tt, @World SimpleFS.simple_fs test_heap test_dicts fs1 []) ->
           perform 5 a (@World SimpleFS.simple_fs test_heap test_dicts fs1 [])
           = Some (Raise e, @World SimpleFS.simple_fs test_heap test_dicts fs2 []) ->
           res = Raise e /\ fs' = fs2.
Proof.
  split; [by vm_compute|]. split; [by vm_compute|].
  apply (@mkTree_follows_plan SimpleFS.simple_fs 5 test_heap test_dicts
           2 0 _ srv []);
    by vm_compute.
Defined.

Lemma mkdir_twice_fails_witness :
  mkdir 5 2 test_world
  = Some (Ret tt, @World SimpleFS.simple_fs test_heap test_dicts srv_with_dirs [])
  /\ exists r p,
      get_root 5 (w_heap test_world) 2 = Some r
      /\ get_path 5 (w_heap test_world) r = Some p
      /\ mkdir 5 2 (@World SimpleFS.simple_fs test_heap test_dicts srv_with_dirs [])
         = Some (Raise (FileExistsError p),
                 @World SimpleFS.simple_fs test_heap test_dicts srv_with_dirs []).
Proof.
  split; [by vm_compute|].
  apply (@mkdir_twice_fails SimpleFS.simple_fs simple_fs_laws 5 2 test_world).
  by vm_compute.
Defined.

(** The child [c] of the root [a] is moved under the root [b]. *)
Lemma add_child_relocates_witness :
  two_roots !! 1 = Some root_b /\ children root_b = Some []
  /\ two_roots !! 2 = Some child_c /\ 2 <> 1
  /\ exists h',
      add_child 1 1 [ChildNode 2] (@World SimpleFS.simple_fs two_roots two_roots_dicts srv [])
      = Some (Ret tt, @World SimpleFS.simple_fs h' two_roots_dicts srv [])
      /\ h' !! 2 = Some (set_parent (ParentNode 1) child_c)
      /\ h' !! 1 = Some (set_children (dict_set [] (name child_c) 2) root_b)
      /\ (forall a, a <> 2 -> a <> 1 -> h' !! a = two_roots !! a)
      /\ (forall q nq,
            parent child_c = ParentNode q -> q <> 1 -> q <> 2 ->
            two_roots !! q = Some nq -> h' !! q = Some nq)
      /\ (forall fuel',
            get_path (S fuel') h' 2
            = (g ← get_path fuel' h' 1; Some (join g [name child_c; ""]))).
Proof.
  split; [reflexivity|]. split; [reflexivity|]. split; [reflexivity|].
  split; [lia|].
  apply (@add_child_relocates SimpleFS.simple_fs 1 1 2 two_roots
           two_roots_dicts srv []
           root_b [] child_c); [reflexivity..|lia].
Defined.

(** After the move, the old parent still lists the node, whose path
    now goes through the new parent. *)
Example relocation_leaves_stale_entry :
  exists h',
    add_child 1 1 [ChildNode 2] (@World SimpleFS.simple_fs two_roots two_roots_dicts srv [])
    = Some (Ret tt, @World SimpleFS.simple_fs h' two_roots_dicts srv [])
    /\ h' !! 0 = Some root_a
    /\ get_child 0 "c" (@World SimpleFS.simple_fs h' two_roots_dicts srv [])
       = Some (Ret (Some 2), @World SimpleFS.simple_fs h' two_roots_dicts srv [])
    /\ get_path 3 two_roots 2 = Some "/srv/a/c/"
    /\ get_path 3 h' 2 = Some "/srv/b/c/".
Proof. eexists. by vm_compute. Qed.

Lemma get_path_trailing_separator_witness :
  test_heap !! 0 = Some folder
  /\ get_path 3 test_heap 0 = Some "/srv/test_folder/"
  /\ ("/srv/test_folder/" = "" \/ endswith "/srv/test_folder/" sep = true)
  /\ (name folder <> "" -> endswith "/srv/test_folder/" sep = true)
  /\ forall r d file_name content ds fs ws,
      files folder = Some r -> ds !! r = Some d ->
      dict_get d file_name = Some content ->
      get_file_path 3 0 file_name (@World SimpleFS.simple_fs test_heap ds fs ws)
      = Some (Ret (Some (if startswith file_name sep then file_name
                         else "/srv/test_folder/" +:+ file_name)),
              @World SimpleFS.simple_fs test_heap ds fs ws).
Proof.
  split; [reflexivity|]. split; [by vm_compute|].
  apply (@get_path_trailing_separator SimpleFS.simple_fs 3 test_heap 0 folder
           "/srv/test_folder/"); by vm_compute.
Defined.

(** C10, as stated, fails: for a root built over the empty path with
    the empty name, [get_path()] is the empty string, which does not
    end with a separator. *)
Lemma get_path_may_be_empty :
  ~ (forall fuel h self p,
       get_path fuel h self = Some p -> endswith p sep = true)
  /\ get_path 1 blank_heap 0 = Some ""
  /\ endswith "" sep = false.
Proof.
  split; [|by vm_compute].
  intros Hall. specialize (Hall 1 blank_heap 0 "" eq_refl). discriminate.
Qed.

(** The failing input of C2: [FileTree("a", "/srv", children="b")]
    raises, leaving behind the object under construction, without
    [children] and [files], and the node made for the name. *)
Example init_with_children_failing_input :
  __init__ 2 "a" (ParentStr "/srv") None (Some (ChildrenStr "b"))
    (@World SimpleFS.simple_fs [] [] srv [])
  = Some (Raise (AttributeError
                   "'FileTree' object has no attribute 'children'"),
          @World SimpleFS.simple_fs
            [mkFileTree (ParentStr "/srv") "a" None None;
             mkFileTree (ParentNode 0) "b" (Some []) (Some 0)]
            [ [] ] srv []).
Proof. by vm_compute. Qed.

End OnExamples.

(** * More on path and root resolution *)

Section MorePaths.

Implicit Types (h : heap) (n : FileTree) (fuel d k : nat).

Lemma join_snoc root names x : join root (names ++ [x]) = join2 (join root names) x.
Proof. unfold join. by rewrite fold_left_app. Qed.

Lemma get_path_lineage_aux h c root names :
  lineage h c root names ->
  forall fuel, length names <= fuel ->
    get_path fuel h c = Some (join root (names ++ [""])).
Proof.
  induction 1 as [r n root Hn Hp|c n p root names Hn Hp _ IH]; intros fuel Hle.
  - destruct fuel as [|fuel]; [cbn in Hle; lia|].
    by rewrite (get_path_unfold _ _ _ _ Hn), Hp.
  - rewrite length_app in Hle. cbn in Hle.
    destruct fuel as [|fuel]; [lia|].
    rewrite (get_path_unfold _ _ _ _ Hn), Hp, (IH fuel) by lia.
    cbn [mbind option_bind]. f_equal.
    rewrite !join_snoc. cbn [join fold_left].
    by rewrite join2_join2_empty.
Qed.

(** The walk of [get_path] up the parent links returns at the depths
    at which the walk of [get_root] returns. *)
Lemma get_path_recursive_is_Some fuel h c x :
  is_Some (__get_path_recursive fuel h c x) <-> is_Some (get_root fuel h c).
Proof.
  revert c x. induction fuel as [|fuel IH]; intros c x;
    [split; intros [? ?]; done|].
  cbn [__get_path_recursive get_root].
  destruct (h !! c) as [n|]; cbn; [|split; intros [? ?]; done].
  destruct (parent n) as [root|p]; [|apply IH].
  split; intros _; eauto.
Qed.

Lemma get_root_chain_inv fuel h c r :
  get_root fuel h c = Some r ->
  exists root d, chain h c r root d /\ d < fuel.
Proof.
  revert c. induction fuel as [|fuel IH]; intros c; [done|].
  cbn [get_root]. destruct (h !! c) as [n|] eqn:Hn; [|done]. cbn.
  destruct (parent n) as [root|p] eqn:Hp.
  - intros [= <-]. exists root, 0. split; [by eapply chain_root|lia].
  - intros Hr. apply IH in Hr as (root & d & Hchain & Hlt).
    exists root, (S d). split; [by eapply chain_step|lia].
Qed.

Lemma chain_lineage h c r root d :
  chain h c r root d -> exists names, lineage h c root names /\ length names = S d.
Proof.
  induction 1 as [r n root Hn Hp|c n p r root d Hn Hp _ (names & Hl & Hlen)].
  - exists [name n]. split; [by eapply lineage_root|done].
  - exists (names ++ [name n]). split; [by eapply lineage_step|].
    rewrite length_app. cbn. lia.
Qed.

(** X1: [get_path()] is the one join of the raw root path with the
    names on the way from the root node down to the node and a final
    empty segment, at any recursion depth that covers the chain. *)
Theorem get_path_of_lineage h c root names fuel :
  lineage h c root names -> length names <= fuel ->
  get_path fuel h c = Some (join root (names ++ [""])).
Proof. intros Hl Hle. by apply get_path_lineage_aux. Qed.

(** X3: what [get_root()] returns is a root node reached from the node
    by its parent links: its parent is the raw string that
    [get_root_path()] returns, and [get_path()] of the node starts from
    that string. *)
Theorem get_root_returns_chain_end fuel h c r :
  get_root fuel h c = Some r ->
  exists n root names,
    h !! r = Some n /\ parent n = ParentStr root
    /\ get_root_path fuel h c = Some root
    /\ lineage h c root names
    /\ get_path fuel h c = Some (join root (names ++ [""])).
Proof.
  intros Hr. destruct (get_root_chain_inv _ _ _ _ Hr) as (root & d & Hc & Hlt).
  destruct (chain_end _ _ _ _ _ Hc) as (n & Hn & Hp).
  destruct (get_root_chain_aux _ _ _ _ _ Hc fuel Hlt) as [_ Hrp].
  destruct (chain_lineage _ _ _ _ _ Hc) as (names & Hl & Hlen).
  exists n, root, names. repeat split; try done.
  apply get_path_lineage_aux; [done|lia].
Qed.

(** X4: a node whose name starts with the separator leaves the
    directory of its parent: its [get_path()] is its name alone, with
    the trailing separator. *)
Theorem get_path_absolute_name fuel h c n p :
  h !! c = Some n -> startswith (name n) sep = true ->
  get_path fuel h c = Some p ->
  p = join (name n) [""].
Proof.
  intros Hn Hs Hp. destruct fuel as [|fuel]; [done|].
  rewrite (get_path_unfold _ _ _ _ Hn) in Hp. cbn [join fold_left] in *.
  destruct (parent n) as [root|q].
  - injection Hp as <-. by rewrite (join2_unfold root), Hs.
  - destruct (get_path fuel h q) as [g|]; [|done]. cbn in Hp.
    injection Hp as <-. by rewrite (join2_unfold g), Hs.
Qed.

(** Walking up from a descendant of [a] arrives at [a]. *)
Lemma get_root_ancestor h a c k :
  ancestor h a c k ->
  forall fuel, get_root fuel h c = if decide (k <= fuel) then get_root (fuel - k) h a else None.
Proof.
  induction 1 as [|c n p k Hne Hn Hp _ IH]; intros fuel.
  - rewrite decide_True by lia. f_equal. lia.
  - destruct fuel as [|fuel]; [by rewrite decide_False by lia|].
    cbn [get_root]. rewrite Hn. cbn. rewrite Hp, IH.
    destruct (decide (k <= fuel)).
    + rewrite decide_True by lia. done.
    + by rewrite decide_False by lia.
Qed.

Lemma get_root_cycle h a c n k :
  h !! a = Some n -> parent n = ParentNode c -> ancestor h a c k ->
  forall fuel, get_root fuel h a = None.
Proof.
  intros Hn Hp Ha fuel.
  induction fuel as [fuel IH] using lt_wf_ind.
  destruct fuel as [|fuel]; [done|].
  cbn [get_root]. rewrite Hn. cbn. rewrite Hp, (get_root_ancestor _ _ _ _ Ha).
  destruct (decide (k <= fuel)); [|done]. apply IH. lia.
Qed.

Lemma ancestor_transfer h h' a c k :
  ancestor h a c k ->
  (forall x n, x <> a -> h !! x = Some n ->
               exists n', h' !! x = Some n' /\ parent n' = parent n) ->
  ancestor h' a c k.
Proof.
  intros Ha Hsame. induction Ha as [|c n p k Hne Hn Hp _ IH]; [constructor|].
  destruct (Hsame c n Hne Hn) as (n' & Hn' & Hp').
  eapply ancestor_up; [done|exact Hn'|by rewrite Hp'|done].
Qed.

End MorePaths.

(** * More on construction and mutation *)

Section MoreMutation.

Context `{FileSystem}.

Implicit Types (w : world) (h : heap) (n : FileTree).

(** [files or {}]: the given dict when it is not empty, a new empty
    dict otherwise. *)
Lemma files_or_empty_run files h ds fs ws :
  match files with Some r => is_Some (ds !! r) | None => True end ->
  files_or_empty files (World h ds fs ws)
  = Some (Ret (default (length ds) (kept_files ds files)),
          World h (if kept_files ds files is Some _ then ds else ds ++ [[]])
                fs ws).
Proof.
  destruct files as [r|]; [|done]. intros [d Hd].
  unfold files_or_empty, kept_files. cbn [mbind option_bind]. rewrite Hd.
  erewrite bind_ret by by apply dict_items_run.
  cbn [mbind option_bind]. by destruct d.
Qed.

Lemma init_run fuel name parent files h ds fs ws :
  match files with Some r => is_Some (ds !! r) | None => True end ->
  __init__ (S fuel) name parent files None (World h ds fs ws)
  = Some (Ret (length h),
          World (h ++ [mkFileTree parent name (Some [])
                         (Some (default (length ds) (kept_files ds files)))])
                (if kept_files ds files is Some _ then ds else ds ++ [[]])
                fs
                (match parent with
                 | ParentStr p =>
                     if os_path_exists p fs then ws
                     else ws ++ ["Root node root path not exists: " +:+ p]
                 | ParentNode _ => ws
                 end)).
Proof.
  intros Hfiles. cbn [__init__].
  set (ws' := match parent with ParentStr p => _ | ParentNode _ => ws end).
  erewrite (bind_ret _ _ _ tt (World h ds fs ws')); cycle 1.
  { subst ws'. destruct parent as [p|q]; [|done].
    unfold mbind, M_bind, path_exists, warn. cbn.
    by destruct (os_path_exists p fs). }
  erewrite bind_ret by apply alloc_run.
  cbn [w_heap w_dicts w_fs w_warnings].
  erewrite bind_ret; cycle 1.
  { erewrite update_run; [reflexivity|]. by apply list_lookup_middle. }
  cbn [w_heap w_dicts w_fs w_warnings].
  erewrite bind_ret by by apply files_or_empty_run.
  erewrite bind_ret; cycle 1.
  { erewrite update_run; [reflexivity|]. cbn [w_heap].
    rewrite list_lookup_insert_eq; [done|]. rewrite length_app. cbn. lia. }
  cbn [w_heap w_dicts w_fs w_warnings].
  rewrite list_insert_insert_eq.
  replace (length h) with (length h + 0) at 2 by lia.
  by rewrite insert_app_r.
Qed.

(** X5: a call of the constructor without [children] never fails and
    never touches the file system: it returns a new object with the
    given parent and name, no children and the given files (the dict
    of the caller itself when that is not empty, a new empty dict
    otherwise), and emits the warning exactly when the parent is a
    path that does not exist. *)
Theorem init_without_children fuel name parent files h ds fs ws :
  match files with Some r => is_Some (ds !! r) | None => True end ->
  __init__ (S fuel) name parent files None (World h ds fs ws)
  = Some (Ret (length h),
          World (h ++ [mkFileTree parent name (Some [])
                         (Some (default (length ds) (kept_files ds files)))])
                (if kept_files ds files is Some _ then ds else ds ++ [[]])
                fs
                (match parent with
                 | ParentStr p =>
                     if os_path_exists p fs then ws
                     else ws ++ ["Root node root path not exists: " +:+ p]
                 | ParentNode _ => ws
                 end)).
Proof. apply init_run. Qed.

Lemma add_child_cons fuel self x l w :
  add_child fuel self (x :: l) w
  = match add_child fuel self [x] w with
    | Some (Ret _, w1) => add_child fuel self l w1
    | r => r
    end.
Proof.
  unfold add_child, add_child_with. cbn [for_each]. unfold mbind, M_bind.
  match goal with
  | |- match ?e with _ => _ end = _ => by destruct e as [[[[]|e'] w1]|]
  end.
Qed.

Lemma add_child_name_run fuel self x h ds fs ws np cs :
  h !! self = Some np -> children np = Some cs ->
  add_child (S fuel) self [ChildName x] (World h ds fs ws)
  = Some (Ret tt,
          World (<[self := set_children (dict_set cs x (length h)) np]>
                   (h ++ [mkFileTree (ParentNode self) x (Some [])
                            (Some (length ds))]))
                (ds ++ [[]]) fs ws).
Proof.
  intros Hn Hcs. pose proof (lookup_lt_Some _ _ _ Hn) as Hlt.
  unfold add_child, add_child_with. cbn [for_each].
  erewrite bind_ret; [reflexivity|].
  erewrite bind_ret by by apply (init_run fuel x (ParentNode self) None).
  cbn [kept_files mbind option_bind default].
  erewrite bind_ret; cycle 1.
  { eapply getattr_children_run; [|done]. cbn [w_heap].
    by rewrite lookup_app_l. }
  erewrite update_run; [done|]. cbn [w_heap]. by rewrite lookup_app_l.
Qed.

Lemma add_child_node_run fuel self c h ds fs ws np cs nc :
  h !! self = Some np -> children np = Some cs -> h !! c = Some nc ->
  add_child fuel self [ChildNode c] (World h ds fs ws)
  = Some (Ret tt,
          World (<[self := set_children (dict_set cs (name nc) c)
                             (if decide (c = self)
                              then set_parent (ParentNode self) np else np)]>
                   (<[c := set_parent (ParentNode self) nc]> h))
                ds fs ws).
Proof.
  intros Hp Hcs Hc.
  pose proof (lookup_lt_Some _ _ _ Hp) as Hlp.
  pose proof (lookup_lt_Some _ _ _ Hc) as Hlc.
  set (h1 := <[c := set_parent (ParentNode self) nc]> h).
  assert (H1c : h1 !! c = Some (set_parent (ParentNode self) nc)).
  { by apply list_lookup_insert_eq. }
  assert (H1p : h1 !! self
                = Some (if decide (c = self)
                        then set_parent (ParentNode self) np else np)).
  { destruct (decide (c = self)) as [->|Hne].
    - rewrite H1c. congruence.
    - unfold h1. by rewrite list_lookup_insert_ne. }
  unfold add_child, add_child_with. cbn [for_each].
  erewrite bind_ret; [reflexivity|].
  erewrite bind_ret by by apply update_run.
  cbn [w_heap w_dicts w_fs w_warnings]. fold h1.
  erewrite bind_ret; cycle 1.
  { eapply getattr_children_run; [exact H1p|]. by destruct (decide _). }
  erewrite bind_ret by by eapply getattr_name_run.
  by erewrite update_run.
Qed.

(** X6: [add_child("x")] followed by [get_child("x")] gives a new node
    named [x] whose parent is the node it was added to, with no files
    (a new empty dict of its own) and no children, and whose path is
    the path of that node joined with [x]. *)
Theorem add_child_name_then_get_child fuel self x h ds fs ws np cs :
  h !! self = Some np -> children np = Some cs ->
  exists h',
    add_child (S fuel) self [ChildName x] (World h ds fs ws)
    = Some (Ret tt, World h' (ds ++ [[]]) fs ws)
    /\ get_child self x (World h' (ds ++ [[]]) fs ws)
       = Some (Ret (Some (length h)), World h' (ds ++ [[]]) fs ws)
    /\ h' !! length h
       = Some (mkFileTree (ParentNode self) x (Some []) (Some (length ds)))
    /\ read_files (length h) (World h' (ds ++ [[]]) fs ws)
       = Some (Ret [], World h' (ds ++ [[]]) fs ws)
    /\ (forall a, a <> self ->
          h' !! a
          = (h ++ [mkFileTree (ParentNode self) x (Some [])
                     (Some (length ds))]) !! a)
    /\ (forall fuel',
          get_path (S fuel') h' (length h)
          = (g ← get_path fuel' h' self; Some (join g [x; ""]))).
Proof.
  intros Hn Hcs. pose proof (lookup_lt_Some _ _ _ Hn) as Hlt.
  eexists. split; [by apply add_child_name_run|].
  assert (Hnew : (<[self := set_children (dict_set cs x (length h)) np]>
                    (h ++ [mkFileTree (ParentNode self) x (Some [])
                             (Some (length ds))]))
                 !! length h
                 = Some (mkFileTree (ParentNode self) x (Some [])
                           (Some (length ds)))).
  { rewrite list_lookup_insert_ne by lia. by apply list_lookup_middle. }
  split; [|split; [done|split; [|split]]].
  - unfold get_child.
    erewrite bind_ret; cycle 1.
    { eapply getattr_children_run;
        [cbn [w_heap]; apply list_lookup_insert_eq; rewrite length_app; lia
        |reflexivity]. }
    by rewrite dict_get_set, String.eqb_refl.
  - eapply read_files_run; [exact Hnew|done|]. cbn [w_dicts].
    by apply list_lookup_middle.
  - intros a Ha. by rewrite list_lookup_insert_ne.
  - intros fuel'. by rewrite (get_path_unfold fuel' _ _ _ Hnew).
Qed.

(** X7: [add_child] does not look for cycles.  When [c] is the node [a]
    itself or one of its descendants, [c.add_child(a)] succeeds, and
    from then on [get_root()] and [get_path()] of [a] and of [c] do not
    return at any recursion depth. *)
Theorem add_child_of_ancestor_loops fuel c a k h ds fs ws nc cs na :
  h !! c = Some nc -> children nc = Some cs -> h !! a = Some na ->
  ancestor h a c k ->
  exists h',
    add_child fuel c [ChildNode a] (World h ds fs ws)
    = Some (Ret tt, World h' ds fs ws)
    /\ forall fuel',
         get_root fuel' h' a = None /\ get_path fuel' h' a = None
         /\ get_root fuel' h' c = None /\ get_path fuel' h' c = None.
Proof.
  intros Hc Hcs Ha Hanc.
  pose proof (lookup_lt_Some _ _ _ Hc) as Hlc.
  pose proof (lookup_lt_Some _ _ _ Ha) as Hla.
  eexists. split; [by apply add_child_node_run|].
  set (h1 := <[a := set_parent (ParentNode c) na]> h).
  set (h2 := <[c := _]> h1).
  assert (Ha2 : exists n', h2 !! a = Some n' /\ parent n' = ParentNode c).
  { destruct (decide (a = c)) as [->|Hne].
    - eexists. split.
      + unfold h2. apply list_lookup_insert_eq. unfold h1.
        by rewrite length_insert.
      + done.
    - eexists. split.
      + unfold h2. rewrite list_lookup_insert_ne by done.
        unfold h1. by apply list_lookup_insert_eq.
      + done. }
  destruct Ha2 as (n' & Hn' & Hp').
  assert (Hanc2 : ancestor h2 a c k).
  { eapply ancestor_transfer; [exact Hanc|].
    intros x n Hx Hn. destruct (decide (x = c)) as [->|Hxc].
    - eexists. split.
      + unfold h2. apply list_lookup_insert_eq. unfold h1.
        by rewrite length_insert.
      + rewrite decide_False by done. rewrite Hc in Hn. by injection Hn as <-.
    - exists n. split; [|done]. unfold h2, h1.
      by rewrite !list_lookup_insert_ne. }
  assert (Hroot_a : forall fuel', get_root fuel' h2 a = None).
  { by eapply get_root_cycle. }
  assert (Hroot_c : forall fuel', get_root fuel' h2 c = None).
  { intros fuel'. rewrite (get_root_ancestor _ _ _ _ Hanc2).
    destruct (decide (k <= fuel')); [apply Hroot_a|done]. }
  assert (Hpath : forall fuel' x, get_root fuel' h2 x = None ->
                                  get_path fuel' h2 x = None).
  { intros fuel' x Hx. apply eq_None_not_Some. intros Hs.
    apply get_path_recursive_is_Some in Hs. rewrite Hx in Hs.
    by destruct Hs. }
  intros fuel'. repeat split; auto.
Qed.

End MoreMutation.

(** * The names of the children, and what [add_file] leaves alone *)

Section ShapeAndNames.

Context `{FileSystem}.

Implicit Types (w : world) (h : heap) (n : FileTree).

Lemma dict_set_elem {V} (d : dict V) k0 v0 k v :
  (k, v) ∈ dict_set d k0 v0 -> (k, v) = (k0, v0) \/ (k, v) ∈ d.
Proof.
  induction d as [|[k' v'] d IH]; cbn.
  { intros Hin. left. by apply list_elem_of_singleton in Hin. }
  destruct (String.eqb_spec k' k0) as [->|Hne]; intros Hin;
    apply elem_of_cons in Hin as [Hin|Hin].
  - by left.
  - right. by apply elem_of_cons; right.
  - right. by apply elem_of_cons; left.
  - destruct (IH Hin) as [?|?]; [by left|right]. by apply elem_of_cons; right.
Qed.

Lemma children_named_update h h' self np' cs' :
  children_named h ->
  (forall c m, h !! c = Some m -> exists m', h' !! c = Some m' /\ name m' = name m) ->
  (forall a n, h' !! a = Some n -> a <> self ->
     (exists n0, h !! a = Some n0 /\ children n = children n0)
     \/ children n = Some []) ->
  h' !! self = Some np' -> children np' = Some cs' ->
  (forall k c, (k, c) ∈ cs' -> exists m, h' !! c = Some m /\ name m = k) ->
  children_named h'.
Proof.
  intros Hinv Hnames Hothers Hself Hcs' Hentries a n cs0 k c Ha Hcs0 Hin.
  destruct (decide (a = self)) as [->|Hne].
  - rewrite Hself in Ha. injection Ha as <-. rewrite Hcs' in Hcs0.
    injection Hcs0 as <-. by apply Hentries.
  - destruct (Hothers a n Ha Hne) as [(n0 & Hn0 & Heq)|Hnil].
    + rewrite Heq in Hcs0.
      destruct (Hinv a n0 cs0 k c Hn0 Hcs0 Hin) as (m & Hm & <-).
      by apply Hnames.
    + rewrite Hnil in Hcs0. injection Hcs0 as <-. by apply elem_of_nil in Hin.
Qed.

Lemma add_child_step fuel self x h ds fs ws np cs :
  children_named h -> h !! self = Some np -> children np = Some cs ->
  (forall c, x = ChildNode c -> c < length h) ->
  exists h1 k np1 cs1,
    add_child (S fuel) self [x] (World h ds fs ws)
    = Some (Ret tt, World h1 (ds ++ replicate k []) fs ws)
    /\ children_named h1
    /\ h1 !! self = Some np1 /\ children np1 = Some cs1
    /\ length h <= length h1.
Proof.
  intros Hinv Hn Hcs Hvalid. pose proof (lookup_lt_Some _ _ _ Hn) as Hlt.
  destruct x as [x|c].
  - set (leaf := mkFileTree (ParentNode self) x (Some []) (Some (length ds))).
    set (h1 := <[self := set_children (dict_set cs x (length h)) np]>
                 (h ++ [leaf])).
    assert (Hself : h1 !! self = Some (set_children (dict_set cs x (length h)) np)).
    { apply list_lookup_insert_eq. rewrite length_app. lia. }
    assert (Hnames : forall c m, h !! c = Some m ->
              exists m', h1 !! c = Some m' /\ name m' = name m).
    { intros c m Hm. destruct (decide (c = self)) as [->|Hne].
      - rewrite Hn in Hm. injection Hm as <-. eauto.
      - exists m. split; [|done]. unfold h1.
        rewrite list_lookup_insert_ne by done.
        rewrite lookup_app_l; [done|by eapply lookup_lt_Some]. }
    exists h1, 1, (set_children (dict_set cs x (length h)) np),
      (dict_set cs x (length h)).
    split; [by apply add_child_name_run|].
    split; [|split; [done|split; [done|]]].
    + eapply (children_named_update h h1 self); [done|done| |done|done|].
      * intros a n Ha Hne. unfold h1 in Ha.
        rewrite list_lookup_insert_ne in Ha by done.
        destruct (decide (a < length h)) as [Hal|Hal].
        -- left. exists n. rewrite lookup_app_l in Ha by done. done.
        -- right. rewrite lookup_app_r in Ha by lia.
           destruct (a - length h) as [|i]; [|by destruct i].
           by injection Ha as <-.
      * intros k c Hin. apply dict_set_elem in Hin as [[= -> ->]|Hin].
        -- exists leaf. split; [|done]. unfold h1.
           rewrite list_lookup_insert_ne by lia. by apply list_lookup_middle.
        -- destruct (Hinv self np cs k c Hn Hcs Hin) as (m & Hm & <-).
           by apply Hnames.
    + unfold h1. rewrite length_insert, length_app. lia.
  - pose proof (Hvalid c eq_refl) as Hc.
    destruct (lookup_lt_is_Some_2 h c Hc) as [nc Hnc].
    set (np' := if decide (c = self)
                then set_parent (ParentNode self) np else np).
    set (h0 := <[c := set_parent (ParentNode self) nc]> h).
    set (h1 := <[self := set_children (dict_set cs (name nc) c) np']> h0).
    assert (Hnp' : name np' = name np /\ children np' = children np).
    { unfold np'. by destruct (decide _). }
    assert (Hself : h1 !! self
                    = Some (set_children (dict_set cs (name nc) c) np')).
    { apply list_lookup_insert_eq. unfold h0. by rewrite length_insert. }
    assert (Hnames : forall a m, h !! a = Some m ->
              exists m', h1 !! a = Some m' /\ name m' = name m).
    { intros a m Hm. destruct (decide (a = self)) as [->|Hne].
      - rewrite Hn in Hm. injection Hm as <-.
        eexists. split; [exact Hself|]. cbn. apply Hnp'.
      - unfold h1. rewrite list_lookup_insert_ne by done.
        destruct (decide (a = c)) as [->|Hac].
        + rewrite Hnc in Hm. injection Hm as <-.
          eexists. split; [by apply list_lookup_insert_eq|done].
        + exists m. split; [|done]. unfold h0.
          by rewrite list_lookup_insert_ne. }
    exists h1, 0, (set_children (dict_set cs (name nc) c) np'),
      (dict_set cs (name nc) c).
    split; [cbn [replicate]; rewrite app_nil_r; by apply add_child_node_run|].
    split; [|split; [done|split; [done|]]].
    + eapply (children_named_update h h1 self); [done|done| |done|done|].
      * intros a n Ha Hne. left. unfold h1 in Ha.
        rewrite list_lookup_insert_ne in Ha by done.
        destruct (decide (a = c)) as [->|Hac].
        -- unfold h0 in Ha. rewrite list_lookup_insert_eq in Ha by done.
           injection Ha as <-. by exists nc.
        -- unfold h0 in Ha. rewrite list_lookup_insert_ne in Ha by done.
           by exists n.
      * intros k a Hin. apply dict_set_elem in Hin as [[= -> ->]|Hin].
        -- by apply Hnames.
        -- destruct (Hinv self np cs k a Hn Hcs Hin) as (m & Hm & <-).
           by apply Hnames.
    + unfold h1, h0. by rewrite !length_insert.
Qed.

(** X8: [add_child] keeps the names of the children in step with the
    keys: when every entry of every [children] dict is filed under the
    name of its node, this is still so after [add_child] with any
    items, bare names and existing nodes alike.  The call changes no
    dict of files: it only adds the new, empty ones of the nodes it
    makes for the bare names. *)
Theorem add_child_keeps_children_named fuel self items h ds fs ws np cs :
  children_named h -> h !! self = Some np -> children np = Some cs ->
  (forall c, ChildNode c ∈ items -> c < length h) ->
  exists h' k,
    add_child (S fuel) self items (World h ds fs ws)
    = Some (Ret tt, World h' (ds ++ replicate k []) fs ws)
    /\ children_named h'.
Proof.
  revert h ds np cs.
  induction items as [|x items IH]; intros h ds np cs Hinv Hn Hcs Hvalid.
  { exists h, 0. cbn [replicate]. by rewrite app_nil_r. }
  destruct (add_child_step fuel self x h ds fs ws np cs Hinv Hn Hcs)
    as (h1 & k1 & np1 & cs1 & Hrun & Hinv1 & Hn1 & Hcs1 & Hlen).
  { intros c ->. apply Hvalid. by apply elem_of_cons; left. }
  destruct (IH h1 (ds ++ replicate k1 []) np1 cs1 Hinv1 Hn1 Hcs1)
    as (h' & k2 & Hrun' & Hinv').
  { intros c Hc. assert (c < length h); [|lia].
    apply Hvalid. by apply elem_of_cons; right. }
  exists h', (k1 + k2). split; [|done].
  rewrite add_child_cons, Hrun, Hrun'.
  by rewrite replicate_add, app_assoc.
Qed.

(** X9: [add_file] changes nothing but the dict that the node holds as
    its [files]: no object of the tree changes, so the parent, name
    and children of every node, and [get_path()] and [get_root()],
    are what they were, and every other dict is as before.  The dict
    is changed in place: every node that holds the same dict (nodes
    constructed with one and the same non-empty [files] argument do)
    reads the new contents, and a node that holds another dict reads
    what it read before. *)
Theorem add_file_changes_one_dict self kvs h ds fs ws n r d :
  h !! self = Some n -> files n = Some r -> ds !! r = Some d ->
  kwargs_ok kvs ->
  exists ds',
    add_file self kvs (World h ds fs ws) = Some (Ret tt, World h ds' fs ws)
    /\ ds' !! r = Some (assign_all kvs d)
    /\ (forall r', r' <> r -> ds' !! r' = ds !! r')
    /\ (forall other m file_name,
          h !! other = Some m -> files m = Some r ->
          get_file_content other file_name (World h ds' fs ws)
          = Some (Ret (dict_get (assign_all kvs d) file_name),
                  World h ds' fs ws))
    /\ (forall other m r' d' file_name,
          h !! other = Some m -> files m = Some r' -> r' <> r ->
          ds !! r' = Some d' ->
          get_file_content other file_name (World h ds' fs ws)
          = Some (Ret (dict_get d' file_name), World h ds' fs ws)).
Proof.
  intros Hn Hr Hd Hok. pose proof (lookup_lt_Some _ _ _ Hd) as Hlt.
  eexists. split; [by eapply add_file_run|].
  split; [by apply list_lookup_insert_eq|].
  split; [intros r' Hne; by rewrite list_lookup_insert_ne|].
  split.
  - intros other m file_name Hm Hmr. unfold get_file_content.
    erewrite bind_ret; [reflexivity|].
    eapply read_files_run; [exact Hm|exact Hmr|]. cbn [w_dicts].
    by apply list_lookup_insert_eq.
  - intros other m r' d' file_name Hm Hmr Hne Hd'. unfold get_file_content.
    erewrite bind_ret; [reflexivity|].
    eapply read_files_run; [exact Hm|exact Hmr|]. cbn [w_dicts].
    by rewrite list_lookup_insert_ne.
Qed.

End ShapeAndNames.

(** * More on file access and [create_file] *)

Section MoreFiles.

Context `{FileSystem}.

Implicit Types (w : world) (h : heap) (n : FileTree) (fs : FS).

Lemma create_file_written fuel self file_name encoding
    h ds fs ws n r d content p fs' :
  h !! self = Some n -> files n = Some r -> ds !! r = Some d ->
  dict_get d file_name = Some content ->
  get_path fuel h self = Some p ->
  join p [file_name] <> "" ->
  os_open_write (join p [file_name]) encoding content fs = (None, fs') ->
  create_file fuel self file_name encoding (World h ds fs ws)
  = Some (Ret tt, World h ds fs' ws).
Proof.
  intros Hn Hr Hd Hf Hp Hne Hw. unfold create_file.
  rewrite (bind_ret _ _ _ _ _
    (get_file_path_registered fuel self file_name (World h ds fs ws)
       _ _ _ _ _ Hn Hr Hd Hf Hp)).
  destruct (join p [file_name]) as [|ch path] eqn:Hj; [done|].
  unfold try_except.
  rewrite (bind_ret _ _ _ _ _
    (read_files_run self (World h ds fs ws) _ _ _ Hn Hr Hd)), Hf.
  unfold open_write, lift_os. cbn [w_fs w_heap w_dicts w_warnings].
  by rewrite Hw.
Qed.

(** X10: the file lookups answer [None] for a name that is not
    registered and never raise for it, whether or not the path of the
    node can be resolved; for a registered name, [get_file_content]
    returns the content and [get_file_path] the join of [get_path()]
    with the name, without looking at the file system. *)
Theorem file_lookups self file_name fuel h ds fs ws n r d :
  h !! self = Some n -> files n = Some r -> ds !! r = Some d ->
  get_file_content self file_name (World h ds fs ws)
  = Some (Ret (dict_get d file_name), World h ds fs ws)
  /\ (dict_get d file_name = None ->
      get_file_path fuel self file_name (World h ds fs ws)
      = Some (Ret None, World h ds fs ws))
  /\ (forall content p,
        dict_get d file_name = Some content ->
        get_path fuel h self = Some p ->
        get_file_path fuel self file_name (World h ds fs ws)
        = Some (Ret (Some (join p [file_name])), World h ds fs ws)).
Proof.
  intros Hn Hr Hd. split; [|split].
  - unfold get_file_content.
    by erewrite bind_ret by by eapply read_files_run.
  - intros Hf. by eapply get_file_path_absent.
  - intros content p Hf Hp.
    by eapply (get_file_path_registered fuel self file_name (World h ds fs ws)).
Qed.

(** X11: [create_file] of a registered file whose path is not empty,
    when the write succeeds, returns normally; the file system is the
    one left by the write of the stored content at the join of
    [get_path()] with the file name, and the objects are unchanged. *)
Theorem create_file_writes_content fuel self file_name encoding
    h ds fs ws n r d content p fs' :
  h !! self = Some n -> files n = Some r -> ds !! r = Some d ->
  dict_get d file_name = Some content ->
  get_path fuel h self = Some p ->
  join p [file_name] <> "" ->
  os_open_write (join p [file_name]) encoding content fs = (None, fs') ->
  create_file fuel self file_name encoding (World h ds fs ws)
  = Some (Ret tt, World h ds fs' ws).
Proof. apply create_file_written. Qed.

(** X12: a file registered under the empty name on a node whose
    [get_path()] is empty cannot be written: its path is the empty
    string, which [create_file] takes for a missing file, so it raises
    the virtual-file-not-found error and writes nothing. *)
Theorem create_file_empty_path fuel self encoding h ds fs ws n r d content :
  h !! self = Some n -> files n = Some r -> ds !! r = Some d ->
  dict_get d "" = Some content ->
  get_path fuel h self = Some "" ->
  create_file fuel self "" encoding (World h ds fs ws)
  = Some (Raise (FileNotFoundError
                   ("Virtual file " +:+ "" +:+ " not found from node "
                    +:+ name n)),
          World h ds fs ws).
Proof.
  intros Hn Hr Hd Hf Hp. unfold create_file.
  rewrite (bind_ret _ _ _ _ _
    (get_file_path_registered fuel self "" (World h ds fs ws)
       _ _ _ _ _ Hn Hr Hd Hf Hp)).
  change (join "" [""]) with "". cbv iota.
  by rewrite (bind_ret _ _ _ _ _ (getattr_name_run self (World h ds fs ws) _ Hn)).
Qed.

(** X13: [add_file(name=content)], for a name other than [self],
    followed by [create_file(name)] writes exactly [content] at the
    join of the node's path with [name], whatever the node held under
    that name before; of the objects, only the dict of the node has
    changed, by the assignment of [content] to [name]. *)
Theorem add_file_then_create_file fuel self file_name encoding
    h ds fs ws n r d content p fs' :
  h !! self = Some n -> files n = Some r -> ds !! r = Some d ->
  file_name <> "self" ->
  get_path fuel h self = Some p ->
  join p [file_name] <> "" ->
  os_open_write (join p [file_name]) encoding content fs = (None, fs') ->
  (add_file self [(file_name, content)];;
   create_file fuel self file_name encoding) (World h ds fs ws)
  = Some (Ret tt, World h (<[r := dict_set d file_name content]> ds) fs' ws)
  /\ get_file_content self file_name
       (World h (<[r := dict_set d file_name content]> ds) fs' ws)
     = Some (Ret (Some content),
             World h (<[r := dict_set d file_name content]> ds) fs' ws).
Proof.
  intros Hn Hr Hd Hname Hp Hne Hw. pose proof (lookup_lt_Some _ _ _ Hd) as Hlt.
  assert (Hok : kwargs_ok [(file_name, content)]).
  { apply kwargs_ok_checked; [done|]. apply bool_decide_eq_false.
    cbn. intros Hin. apply list_elem_of_singleton in Hin. done. }
  set (d' := dict_set d file_name content).
  assert (Hd' : <[r := d']> ds !! r = Some d').
  { by apply list_lookup_insert_eq. }
  assert (Hf' : dict_get d' file_name = Some content).
  { unfold d'. by rewrite dict_get_set, String.eqb_refl. }
  split.
  - erewrite bind_ret by by eapply add_file_run.
    by eapply create_file_written.
  - unfold get_file_content.
    erewrite bind_ret by by eapply read_files_run.
    by rewrite Hf'.
Qed.

End MoreFiles.

(** * More on materialisation *)

Section MoreMaterialisation.

Context `{FileSystem}.

Implicit Types (w : world) (h : heap) (n : FileTree) (fs : FS).

Lemma keeps_ret {A} (a : A) : keeps_objects (mret a).
Proof. intros w r w' [= _ <-]. done. Qed.

Lemma keeps_raise {A} e : keeps_objects (@raise _ A e).
Proof. intros w r w' [= _ <-]. done. Qed.

Lemma keeps_diverge {A} : keeps_objects (@diverge _ A).
Proof. intros w r w' [=]. Qed.

Lemma keeps_call {A} (f : heap -> option A) : keeps_objects (call f).
Proof. intros w r w' Hrun. by apply call_inv in Hrun as [-> _]. Qed.

Lemma keeps_lift_os f : keeps_objects (lift_os f).
Proof.
  intros w r w'. unfold lift_os. destruct (f (w_fs w)) as [o fs'].
  by intros [= _ <-].
Qed.

Lemma keeps_bind {A B} (m : M A) (k : A -> M B) :
  keeps_objects m -> (forall a, keeps_objects (k a)) ->
  keeps_objects (m ≫= k).
Proof.
  intros Hm Hk w r w' Hrun.
  apply bind_inv in Hrun as [(e & Hrun & _)|(a & w1 & Hrun & Hrest)].
  - by apply Hm in Hrun.
  - apply Hm in Hrun as (<- & <- & <-). by apply Hk in Hrest.
Qed.

Lemma keeps_try {A} (m : M A) (handler : exn -> M A) :
  keeps_objects m -> (forall e, keeps_objects (handler e)) ->
  keeps_objects (try_except m handler).
Proof.
  intros Hm Hh w r w'. unfold try_except.
  destruct (m w) as [[[a|e] w1]|] eqn:Hrun; [|
    |done].
  - intros [= <- <-]. by apply Hm in Hrun.
  - intros Hrest. apply Hm in Hrun as (<- & <- & <-). by apply Hh in Hrest.
Qed.

Lemma keeps_for_each {A} (l : list A) (body : A -> M unit) :
  (forall x, keeps_objects (body x)) -> keeps_objects (for_each l body).
Proof.
  intros Hbody. induction l as [|x l IH]; [apply keeps_ret|].
  cbn [for_each]. apply keeps_bind; [apply Hbody|by intros _].
Qed.

Lemma keeps_getattr_name a : keeps_objects (getattr_name a).
Proof.
  apply keeps_bind; [apply keeps_call|intros n; apply keeps_ret].
Qed.

Lemma keeps_getattr_files a : keeps_objects (getattr_files a).
Proof.
  apply keeps_bind; [apply keeps_call|intros n].
  destruct (files n); [apply keeps_ret|apply keeps_raise].
Qed.

Lemma keeps_dict_items r : keeps_objects (dict_items r).
Proof.
  intros w res w'. unfold dict_items.
  destruct (w_dicts w !! r); [|done]. by intros [= _ <-].
Qed.

Lemma keeps_read_files a : keeps_objects (read_files a).
Proof.
  apply keeps_bind; [apply keeps_getattr_files|intros r].
  apply keeps_dict_items.
Qed.

Lemma keeps_getattr_children a : keeps_objects (getattr_children a).
Proof.
  apply keeps_bind; [apply keeps_call|intros n].
  destruct (children n); [apply keeps_ret|apply keeps_raise].
Qed.

Lemma keeps_get_file_path fuel self file_name :
  keeps_objects (get_file_path fuel self file_name).
Proof.
  apply keeps_bind; [apply keeps_read_files|intros d].
  destruct (dict_get d file_name); [|apply keeps_ret].
  apply keeps_bind; [apply keeps_call|intros p; apply keeps_ret].
Qed.

Lemma keeps_create_file fuel self file_name encoding :
  keeps_objects (create_file fuel self file_name encoding).
Proof.
  apply keeps_bind; [apply keeps_get_file_path|intros file_path].
  assert (Hmissing : keeps_objects
    (n ← getattr_name self;
     @raise _ unit (FileNotFoundError
              ("Virtual file " +:+ file_name +:+ " not found from node " +:+ n)))).
  { apply keeps_bind; [apply keeps_getattr_name|intros n; apply keeps_raise]. }
  destruct file_path as [[|ch path]|]; [done| |done].
  apply keeps_try.
  - apply keeps_bind; [apply keeps_read_files|intros d].
    destruct (dict_get d file_name); [apply keeps_lift_os|apply keeps_raise].
  - intros e. apply keeps_bind; [apply keeps_call|intros p; apply keeps_raise].
Qed.

Lemma keeps_mkdir_rec fuel : forall self, keeps_objects (__mkdir__ fuel self).
Proof.
  induction fuel as [|fuel IH]; intros self; [apply keeps_diverge|].
  cbn [__mkdir__]. apply keeps_bind; [apply keeps_call|intros p].
  apply keeps_bind; [apply keeps_lift_os|intros _].
  apply keeps_bind; [apply keeps_getattr_children|intros cs].
  by apply keeps_for_each.
Qed.

Lemma keeps_mkTree_rec fuel : forall self, keeps_objects (__mkTree__ fuel self).
Proof.
  induction fuel as [|fuel IH]; intros self; [apply keeps_diverge|].
  cbn [__mkTree__]. apply keeps_bind; [apply keeps_call|intros p].
  apply keeps_bind; [apply keeps_lift_os|intros _].
  apply keeps_bind; [apply keeps_read_files|intros d].
  apply keeps_bind.
  { apply keeps_for_each. intros k. apply keeps_create_file. }
  intros _. apply keeps_bind; [apply keeps_getattr_children|intros cs].
  by apply keeps_for_each.
Qed.

(** X14: materialisation never changes the tree: whatever
    [create_file], [mkdir] and [mkTree] return or raise, on any heap,
    the objects, the dicts of files and the warnings are the ones they
    started with. *)
Theorem materialisation_keeps_objects fuel self file_name encoding :
  keeps_objects (create_file fuel self file_name encoding)
  /\ keeps_objects (mkdir fuel self)
  /\ keeps_objects (mkTree fuel self).
Proof.
  split; [apply keeps_create_file|split].
  - apply keeps_bind; [apply keeps_call|intros r; apply keeps_mkdir_rec].
  - apply keeps_bind; [apply keeps_call|intros r; apply keeps_mkTree_rec].
Qed.

(** The recursive traversal of [__mkdir__] creates the directories of
    the plan, one after the other. *)
Lemma mkdir_rec_plan h ds fuel :
  forall self paths, mkdir_plan fuel h self = Some paths ->
  forall fs ws, exists r fs',
    __mkdir__ fuel self (World h ds fs ws) = Some (r, World h ds fs' ws)
    /\ for_each paths mkdir_call (World h ds fs ws) = Some (r, World h ds fs' ws).
Proof.
  induction fuel as [|fuel IH]; intros self paths; cbn [mkdir_plan]; [done|].
  destruct (h !! self) as [n|] eqn:Hn; cbn [mbind option_bind]; [|done].
  destruct (get_path (S fuel) h self) as [p|] eqn:Hp;
    cbn [mbind option_bind]; [|done].
  destruct (children n) as [cs|] eqn:Hcs; cbn [mbind option_bind]; [|done].
  destruct (mapM _ _) as [below|] eqn:Hbelow; cbn [mbind option_bind]; [|done].
  intros [= <-] fs ws. apply mapM_Some in Hbelow.
  assert (Hchildren : forall fs, exists r fs',
    for_each (dict_values cs) (__mkdir__ fuel) (World h ds fs ws)
    = Some (r, World h ds fs' ws)
    /\ for_each (concat below) mkdir_call (World h ds fs ws)
       = Some (r, World h ds fs' ws)).
  { clear -IH Hbelow. induction Hbelow as [|c ps cs' below' Hc _ IHl];
      intros fs.
    { exists (Ret tt), fs. done. }
    destruct (IH c ps Hc fs ws) as ([[]|e] & fs1 & H1 & H2).
    - destruct (IHl fs1) as (r & fs' & H3 & H4). exists r, fs'. split.
      + cbn [for_each]. by erewrite bind_ret.
      + cbn [concat]. rewrite for_each_app. by erewrite bind_ret.
    - exists (Raise e), fs1. split.
      + cbn [for_each]. by erewrite bind_raise.
      + cbn [concat]. rewrite for_each_app. by erewrite bind_raise. }
  destruct (os_mkdir p fs) as [[e|] fs1] eqn:Hmk.
  { exists (Raise e), fs1. cbn [__mkdir__ for_each].
    erewrite bind_ret
      by by apply (call_run (fun h => get_path (S fuel) h self)).
    erewrite !bind_raise; [done|..]; by rewrite mkdir_call_run, Hmk. }
  destruct (Hchildren fs1) as (r & fs' & H3 & H4). exists r, fs'. split.
  - cbn [__mkdir__].
    erewrite bind_ret
      by by apply (call_run (fun h => get_path (S fuel) h self)).
    erewrite bind_ret by by rewrite mkdir_call_run, Hmk.
    by erewrite bind_ret by by eapply getattr_children_run.
  - cbn [for_each]. by erewrite bind_ret by by rewrite mkdir_call_run, Hmk.
Qed.

(** X15: [mkdir()], on any node, goes to the root and creates the
    directories of the tree in pre-order, a node before the sub-trees
    of its children; it stops at the first creation that fails, and it
    makes no other call that changes the file system. *)
Theorem mkdir_follows_plan fuel h ds self r paths fs ws :
  get_root fuel h self = Some r ->
  mkdir_plan fuel h r = Some paths ->
  exists res fs',
    mkdir fuel self (World h ds fs ws) = Some (res, World h ds fs' ws)
    /\ for_each paths mkdir_call (World h ds fs ws) = Some (res, World h ds fs' ws).
Proof.
  intros Hr Hplan.
  destruct (mkdir_rec_plan h ds fuel r paths Hplan fs ws)
    as (res & fs' & H1 & H2).
  exists res, fs'. split; [|done]. unfold mkdir.
  by erewrite bind_ret by by apply (call_run (fun h => get_root fuel h self)).
Qed.

Lemma directories_app acts acts' :
  directories (acts ++ acts') = directories acts ++ directories acts'.
Proof.
  induction acts as [|[p|node f] acts IH]; cbn; [done| |done].
  by rewrite IH.
Qed.

Lemma directories_files self keys : directories (map (CreateFile self) keys) = [].
Proof. by induction keys. Qed.

(** The directory actions of the plan of [mkTree] are the plan of
    [mkdir]. *)
Lemma directories_of_mkTree_plan fuel h ds self acts :
  mkTree_plan fuel h ds self = Some acts ->
  mkdir_plan fuel h self = Some (directories acts).
Proof.
  revert self acts. induction fuel as [|fuel IH]; intros self acts;
    cbn [mkTree_plan mkdir_plan]; [done|].
  destruct (h !! self) as [n|] eqn:Hn; cbn [mbind option_bind]; [|done].
  destruct (get_path (S fuel) h self) as [p|] eqn:Hp;
    cbn [mbind option_bind]; [|done].
  destruct (files n) as [rf|] eqn:Hrf; cbn [mbind option_bind]; [|done].
  destruct (ds !! rf) as [d|] eqn:Hd; cbn [mbind option_bind]; [|done].
  destruct (children n) as [cs|] eqn:Hcs; cbn [mbind option_bind]; [|done].
  destruct (mapM (mkTree_plan fuel h ds) _) as [below|] eqn:Hbelow;
    cbn [mbind option_bind]; [|done].
  intros [= <-]. apply mapM_Some in Hbelow.
  assert (mapM (mkdir_plan fuel h) (dict_values cs)
          = Some (map directories below)) as ->.
  { apply mapM_Some. induction Hbelow; constructor; auto. }
  cbn [mbind option_bind directories]. f_equal. f_equal.
  rewrite directories_app, directories_files. cbn [app].
  clear. induction below as [|acts below IH]; [done|].
  cbn [concat map]. by rewrite directories_app, IH.
Qed.

(** X16: [mkdir()] attempts the directory creations of [mkTree()], in
    the same order.  On a tree for which the order of work of
    [mkTree] is [acts], the call [mkTree()] is the run of [acts], and
    the call [mkdir()] is the run of the directory creations of
    [acts] alone, one [os.mkdir] after the other, each call stopping
    at the first step that fails.  (The directories that the two
    calls end up creating can differ: a file write that fails stops
    [mkTree] before the directories that come later.) *)
Theorem mkdir_runs_directories_of_mkTree fuel h ds self r acts fs ws :
  get_root fuel h self = Some r ->
  mkTree_plan fuel h ds r = Some acts ->
  exists res fs' res_d fs_d,
    mkTree fuel self (World h ds fs ws) = Some (res, World h ds fs' ws)
    /\ run_plan fuel acts (World h ds fs ws) = Some (res, World h ds fs' ws)
    /\ mkdir fuel self (World h ds fs ws) = Some (res_d, World h ds fs_d ws)
    /\ for_each (directories acts) mkdir_call (World h ds fs ws)
       = Some (res_d, World h ds fs_d ws).
Proof.
  intros Hr Hplan.
  destruct (mkTree_rec_plan h ds fuel r acts Hplan fs ws)
    as (res & fs' & Hrun).
  destruct (Hrun fuel ltac:(lia)) as [H1 H2].
  destruct (mkdir_rec_plan h ds fuel r (directories acts)
              (directories_of_mkTree_plan _ _ _ _ _ Hplan) fs ws)
    as (res_d & fs_d & H3 & H4).
  exists res, fs', res_d, fs_d. unfold mkTree, mkdir.
  erewrite !bind_ret
    by by apply (call_run (fun h => get_root fuel h self)).
  done.
Qed.

End MoreMaterialisation.

Section MkdirThenMkTree.

Context `{FileSystemLaws}.

(** X17: [mkTree()] cannot complete a tree that [mkdir()] has laid
    out: after a call of [mkdir()] that returned, [mkTree()] on the
    same tree raises [FileExistsError] for the directory of the root
    and changes nothing. *)
Theorem mkTree_after_mkdir_fails fuel self w w1 :
  mkdir fuel self w = Some (Ret tt, w1) ->
  exists r p,
    get_root fuel (w_heap w) self = Some r
    /\ get_path fuel (w_heap w) r = Some p
    /\ mkTree fuel self w1 = Some (Raise (FileExistsError p), w1).
Proof.
  intros Hrun. destruct w as [h ds fs ws]. cbn [w_heap] in *.
  unfold mkdir in Hrun.
  apply bind_inv in Hrun as [(e & _ & [=])|(r & w0 & Hcall & Hrun)].
  apply call_inv in Hcall as [-> (r' & [= <-] & Hr)]. cbn [w_heap] in Hr.
  destruct fuel as [|fuel]; [done|]. cbn [__mkdir__] in Hrun.
  apply bind_inv in Hrun as [(e & _ & [=])|(p & w0 & Hcall & Hrun)].
  apply call_inv in Hcall as [-> (p' & [= <-] & Hp)]. cbn [w_heap] in Hp.
  apply bind_inv in Hrun as [(e & _ & [=])|([] & w0 & Hmk & Hrest)].
  pose proof Hmk as Hmk0. rewrite mkdir_call_run in Hmk0.
  destruct (os_mkdir p fs) as [[e|] fs0] eqn:Hos; [done|].
  injection Hmk0 as <-.
  assert (Hexists : os_path_exists p fs0 = true) by by eapply mkdir_creates.
  assert (exists fs1, w1 = World h ds fs1 ws
            /\ os_path_exists p fs1 = true) as (fs1 & -> & Hfs1).
  { apply bind_inv in Hrest as [(e & _ & [=])|(cs & w2 & Hget & Hrest)].
    pose proof (getattr_children_inv _ _ _ _ Hget) as ->.
    apply (for_each_keeps _ _ _ _ _ (fun c => mkdir_rec_keeps fuel c h ds ws))
      in Hrest as (fs2 & -> & Hfs2).
    eauto. }
  exists r, p. split; [done|split; [done|]].
  unfold mkTree.
  erewrite bind_ret by by apply (call_run (fun h => get_root (S fuel) h self)).
  cbn [__mkTree__].
  erewrite bind_ret by by apply (call_run (fun h => get_path (S fuel) h r)).
  erewrite bind_raise; [done|].
  by rewrite mkdir_call_run, (mkdir_existing p fs1 Hfs1).
Qed.

End MkdirThenMkTree.

(** * The textual representation and the driver script *)

Section MoreRepresentation.

Context `{FileSystem}.

Implicit Types (w : world) (h : heap) (n : FileTree) (fs : FS).

Lemma render_app lines lines' :
  render (lines ++ lines') = render lines +:+ render lines'.
Proof.
  induction lines as [|l lines IH]; [done|].
  cbn [app render foldr]. fold (render (lines ++ lines')). fold (render lines).
  by rewrite IH, append_assoc.
Qed.

Lemma repr_children_run (rec : addr -> M string) (l : list addr)
    (below : list (list repr_line)) h ds fs ws :
  Forall2 (fun c lines =>
             forall fs ws,
               rec c (World h ds fs ws) = Some (Ret (render lines), World h ds fs ws))
          l below ->
  forall repr_str,
    repr_children rec l repr_str (World h ds fs ws)
    = Some (Ret (repr_str +:+ render (concat below)), World h ds fs ws).
Proof.
  induction 1 as [|c lines l below Hc _ IH]; intros repr_str.
  { cbn. by rewrite append_empty_r. }
  cbn [repr_children concat]. erewrite bind_ret by apply Hc.
  by rewrite IH, render_app, append_assoc.
Qed.

Lemma repr_helper_lines h ds fuel :
  forall self indent lines,
    repr_lines fuel h self indent = Some lines ->
    forall fs ws,
      _repr_helper fuel self indent (World h ds fs ws)
      = Some (Ret (render lines), World h ds fs ws).
Proof.
  induction fuel as [|fuel IH]; intros self indent lines; cbn [repr_lines];
    [done|].
  destruct (h !! self) as [n|] eqn:Hn; cbn [mbind option_bind]; [|done].
  destruct (children n) as [cs|] eqn:Hcs; cbn [mbind option_bind]; [|done].
  intros Hlines fs ws. cbn [_repr_helper].
  erewrite bind_ret by by apply getattr_name_run.
  erewrite bind_ret by by eapply getattr_children_run.
  destruct cs as [|kc cs].
  { injection Hlines as <-. cbn [render foldr render_line].
    by rewrite !append_assoc, append_empty_r. }
  destruct (mapM _ _) as [below|] eqn:Hbelow; cbn [mbind option_bind] in Hlines;
    [|done].
  injection Hlines as <-. apply mapM_Some in Hbelow.
  erewrite repr_children_run; cycle 1.
  { eapply Forall2_impl; [exact Hbelow|].
    intros c lines Hc fs' ws'. cbn beta. by apply IH. }
  cbn [render foldr render_line]. fold (render (concat below)).
  by rewrite !append_assoc.
Qed.

(** X18: [repr()] of a node lists the tree below it in pre-order: one
    line per node with its name, indented by four spaces per unit,
    followed, for a node that has children, by a [Children:] line and
    the children two units deeper, in the order of the dict.  It reads
    names and children only, and changes nothing. *)
Theorem repr_is_rendered_lines fuel h ds self lines fs ws :
  repr_lines fuel h self 0 = Some lines ->
  __repr__ fuel self (World h ds fs ws)
  = Some (Ret (render lines), World h ds fs ws).
Proof. intros Hl. by apply repr_helper_lines. Qed.

(** X19: [test.py], run from an empty heap with any directory [path],
    builds three nodes, the third one moved under the second, touches
    no file, and prints the path of the root folder; it warns twice
    when [path] does not exist. *)
Theorem test_py_run fuel path fs ws :
  test_py (S fuel) path (World [] [] fs ws)
  = Some (Ret (join path ["test_folder"; ""]),
          World [ mkFileTree (ParentStr path) "test_folder"
                    (Some [("test_folder2", 1)]) (Some 0);
                  mkFileTree (ParentNode 0) "test_folder2"
                    (Some [("test_folder3", 2)]) (Some 1);
                  mkFileTree (ParentNode 1) "test_folder3"
                    (Some []) (Some 2) ]
                [ [("test.txt", "Hello World!")];
                  [];
                  [("test3.txt", "Hello World!")] ]
                fs
                (if os_path_exists path fs then ws
                 else (ws ++ ["Root node root path not exists: " +:+ path])
                        ++ ["Root node root path not exists: " +:+ path])).
Proof.
  assert (Hok : forall k v, k <> "self" -> kwargs_ok [(k, v) : string * string]).
  { intros k v Hk. apply kwargs_ok_checked; [done|].
    apply bool_decide_eq_false. cbn. intros Hin.
    by apply list_elem_of_singleton in Hin. }
  unfold test_py.
  erewrite bind_ret by by apply init_run.
  set (ws1 := if os_path_exists path fs then ws else _).
  cbn [kept_files mbind option_bind default length app].
  erewrite bind_ret by (eapply add_file_run; [done..|by apply Hok]).
  erewrite bind_ret by by eapply add_child_name_run.
  cbn [length app insert list_insert assign_all fold_left set_files set_children
       dict_set parent name children files fst snd].
  erewrite bind_ret; cycle 1.
  { unfold get_child. erewrite bind_ret by by eapply getattr_children_run.
    reflexivity. }
  cbn [dict_get]. rewrite String.eqb_refl.
  erewrite bind_ret; cycle 1.
  { erewrite bind_ret by by apply init_run.
    cbn [length app w_heap w_dicts w_fs w_warnings kept_files mbind option_bind
         default].
    erewrite bind_ret by by eapply (add_child_node_run (S fuel) 1 2).
    eapply add_file_run; [done..|by apply Hok]. }
  unfold __str__. erewrite call_run by reflexivity.
  subst ws1. by destruct (os_path_exists path fs).
Qed.

End MoreRepresentation.

(** * Replaced children and the empty [children] argument *)

Section MoreChildren.

Context `{FileSystem}.

Implicit Types (w : world) (h : heap) (n : FileTree) (fs : FS).

Lemma dict_keys_set_present {V} (d : dict V) k v v0 :
  dict_get d k = Some v0 -> dict_keys (dict_set d k v) = dict_keys d.
Proof.
  unfold dict_keys. induction d as [|[k' v'] d IH]; [done|]. cbn.
  destruct (String.eqb k' k); [done|]. intros Hd. cbn. by rewrite IH.
Qed.

(** X20: adding a bare name that is already the name of a child puts a
    new, empty node in the place of the old one, at the same position
    among the children; the old node is not told: it stays in the heap
    as it was, its parent link still pointing at the node. *)
Theorem add_child_replaces_same_name fuel self x h ds fs ws np cs old nold :
  h !! self = Some np -> children np = Some cs ->
  dict_get cs x = Some old -> old <> self -> h !! old = Some nold ->
  exists h' np',
    add_child (S fuel) self [ChildName x] (World h ds fs ws)
    = Some (Ret tt, World h' (ds ++ [[]]) fs ws)
    /\ h' !! self = Some np'
    /\ children np' = Some (dict_set cs x (length h))
    /\ dict_keys (dict_set cs x (length h)) = dict_keys cs
    /\ get_child self x (World h' (ds ++ [[]]) fs ws)
       = Some (Ret (Some (length h)), World h' (ds ++ [[]]) fs ws)
    /\ length h <> old
    /\ h' !! old = Some nold.
Proof.
  intros Hn Hcs Hold Hne Hnold.
  pose proof (lookup_lt_Some _ _ _ Hn) as Hlt.
  pose proof (lookup_lt_Some _ _ _ Hnold) as Hlo.
  eexists _, _. split; [by apply add_child_name_run|].
  assert (Hself : (<[self := set_children (dict_set cs x (length h)) np]>
                     (h ++ [mkFileTree (ParentNode self) x (Some [])
                              (Some (length ds))]))
                  !! self
                  = Some (set_children (dict_set cs x (length h)) np)).
  { apply list_lookup_insert_eq. rewrite length_app. lia. }
  split; [exact Hself|]. split; [done|]. split; [|split; [|split]].
  - by eapply dict_keys_set_present.
  - unfold get_child.
    erewrite bind_ret by (eapply getattr_children_run; [exact Hself|done]).
    by rewrite dict_get_set, String.eqb_refl.
  - lia.
  - rewrite list_lookup_insert_ne by done. by rewrite lookup_app_l.
Qed.

(** X21: with the empty string for [children], the constructor
    returns, but the node it returns has no [children] attribute:
    [get_child] and [add_child] on it raise [AttributeError]. *)
Theorem init_with_empty_string_lacks_children fuel name parent files x
    h ds fs ws :
  match files with Some r => is_Some (ds !! r) | None => True end ->
  exists node ds' ws',
    node = mkFileTree parent name None
             (Some (default (length ds) (kept_files ds files)))
    /\ ds' = (if kept_files ds files is Some _ then ds else ds ++ [[]])
    /\ __init__ (S fuel) name parent files (Some (ChildrenStr ""))
         (World h ds fs ws)
       = Some (Ret (length h), World (h ++ [node]) ds' fs ws')
    /\ get_child (length h) x (World (h ++ [node]) ds' fs ws')
       = Some (Raise (AttributeError
                        "'FileTree' object has no attribute 'children'"),
               World (h ++ [node]) ds' fs ws')
    /\ exists w',
        add_child (S fuel) (length h) [ChildName x]
          (World (h ++ [node]) ds' fs ws')
        = Some (Raise (AttributeError
                         "'FileTree' object has no attribute 'children'"), w').
Proof.
  intros Hfiles.
  destruct (root_check_run parent (World h ds fs ws)) as (ws' & Hcheck).
  cbn [w_heap w_dicts w_fs] in Hcheck.
  set (node := mkFileTree parent name None
                 (Some (default (length ds) (kept_files ds files)))).
  assert (Hnode : (h ++ [node]) !! length h = Some node).
  { by apply list_lookup_middle. }
  eexists node, _, ws'. split; [done|]. split; [reflexivity|]. split; [|split].
  - cbn [__init__].
    erewrite bind_ret by exact Hcheck.
    erewrite bind_ret by apply alloc_run.
    cbn [w_heap w_dicts w_fs w_warnings].
    erewrite bind_ret by done.
    erewrite bind_ret by by apply files_or_empty_run.
    erewrite bind_ret; cycle 1.
    { erewrite update_run; [reflexivity|]. by apply list_lookup_middle. }
    cbn [w_heap w_dicts w_fs w_warnings].
    replace (length h) with (length h + 0) at 2 by lia.
    by rewrite insert_app_r.
  - unfold get_child, getattr_children.
    erewrite bind_raise; [done|].
    by erewrite bind_ret by by apply load_run.
  - eexists. unfold add_child, add_child_with. cbn [for_each].
    erewrite bind_raise; [reflexivity|].
    erewrite bind_ret by by apply init_run.
    erewrite bind_raise; [reflexivity|].
    unfold getattr_children.
    erewrite bind_ret; cycle 1.
    { apply load_run. cbn [w_heap]. rewrite lookup_app_l.
      - exact Hnode.
      - rewrite length_app. cbn. lia. }
    done.
Qed.

End MoreChildren.

(** * The further properties on the example trees *)

Section OnMoreExamples.

Import Examples MoreExamples.

Lemma test_heap_lineage :
  lineage test_heap 2 "/srv" ["test_folder"; "test_folder2"; "test_folder3"].
Proof.
  apply (lineage_step test_heap 2 folder3 1 "/srv"
           ["test_folder"; "test_folder2"]); [reflexivity..|].
  apply (lineage_step test_heap 1 folder2 0 "/srv" ["test_folder"]);
    [reflexivity..|].
  apply (lineage_root test_heap 0 folder "/srv"); reflexivity.
Defined.

Lemma test_heap_ancestor : ancestor test_heap 0 2 2.
Proof.
  apply (ancestor_up test_heap 0 2 folder3 1 1); [lia|reflexivity..|].
  apply (ancestor_up test_heap 0 1 folder2 0 0); [lia|reflexivity..|].
  apply ancestor_here.
Defined.

Lemma test_heap_children_named : children_named test_heap.
Proof.
  intros a n cs k c Ha Hcs Hin.
  destruct a as [|[|[|a]]]; cbn in Ha; [| | |done];
    injection Ha as <-; injection Hcs as <-.
  - apply list_elem_of_singleton in Hin as [= -> ->]. by exists folder2.
  - apply list_elem_of_singleton in Hin as [= -> ->]. by exists folder3.
  - by apply elem_of_nil in Hin.
Defined.

Lemma get_path_of_lineage_witness :
  lineage test_heap 2 "/srv" ["test_folder"; "test_folder2"; "test_folder3"]
  /\ length ["test_folder"; "test_folder2"; "test_folder3"] <= 3
  /\ get_path 3 test_heap 2
     = Some (join "/srv"
               (["test_folder"; "test_folder2"; "test_folder3"] ++ [""])).
Proof.
  split; [exact test_heap_lineage|]. split; [cbn; lia|].
  apply (get_path_of_lineage test_heap 2 "/srv"
           ["test_folder"; "test_folder2"; "test_folder3"] 3
           test_heap_lineage).
  cbn; lia.
Defined.

Lemma get_root_returns_chain_end_witness :
  get_root 3 test_heap 2 = Some 0
  /\ exists n root names,
      test_heap !! 0 = Some n /\ parent n = ParentStr root
      /\ get_root_path 3 test_heap 2 = Some root
      /\ lineage test_heap 2 root names
      /\ get_path 3 test_heap 2 = Some (join root (names ++ [""])).
Proof.
  split; [reflexivity|].
  apply (get_root_returns_chain_end 3 test_heap 2 0). reflexivity.
Defined.

Lemma get_path_absolute_name_witness :
  escaping_heap !! 1 = Some child_etc
  /\ startswith (name child_etc) sep = true
  /\ get_path 2 escaping_heap 1 = Some "/etc/"
  /\ "/etc/" = join (name child_etc) [""].
Proof.
  split; [reflexivity|]. split; [reflexivity|]. split; [reflexivity|].
  apply (get_path_absolute_name 2 escaping_heap 1 child_etc "/etc/");
    reflexivity.
Defined.

Lemma init_without_children_witness :
  match Some 0 with
  | Some r => is_Some (test_dicts !! r)
  | None => True
  end
  /\ __init__ 1 "other" (ParentStr "/nowhere") (Some 0) None test_world
     = Some (Ret 3,
             @World SimpleFS.simple_fs
               (test_heap
                  ++ [mkFileTree (ParentStr "/nowhere") "other" (Some [])
                        (Some 0)])
               test_dicts srv
               ["Root node root path not exists: /nowhere"]).
Proof.
  assert (Hfiles : match Some 0 with
                   | Some r => is_Some (test_dicts !! r)
                   | None => True
                   end).
  { by eexists. }
  split; [exact Hfiles|].
  exact (@init_without_children SimpleFS.simple_fs 0 "other"
           (ParentStr "/nowhere") (Some 0) test_heap test_dicts srv []
           Hfiles).
Defined.

(** Two nodes constructed with one dict of files, which is not empty,
    hold the same dict: a file added to the first is a file of the
    second. *)
Example init_shares_the_files :
  exists w',
    (one ← __init__ 1 "one" (ParentStr "/srv") (Some 0) None;
     two ← __init__ 1 "two" (ParentStr "/srv") (Some 0) None;
     add_file one [("b", "2")];;
     get_file_content two "b")
      (@World SimpleFS.simple_fs [] [ [("a", "1")] ] srv [])
    = Some (Ret (Some "2"), w').
Proof. eexists. vm_compute. reflexivity. Qed.

(** With an empty dict, each node gets a new dict of its own. *)
Example init_replaces_empty_files :
  exists w',
    (one ← __init__ 1 "one" (ParentStr "/srv") (Some 0) None;
     two ← __init__ 1 "two" (ParentStr "/srv") (Some 0) None;
     add_file one [("b", "2")];;
     get_file_content two "b")
      (@World SimpleFS.simple_fs [] [ [] ] srv [])
    = Some (Ret None, w').
Proof. eexists. vm_compute. reflexivity. Qed.

Lemma add_child_name_then_get_child_witness :
  test_heap !! 2 = Some folder3 /\ children folder3 = Some []
  /\ exists h',
      add_child 1 2 [ChildName "new"] test_world
      = Some (Ret tt, @World SimpleFS.simple_fs h' (test_dicts ++ [[]]) srv [])
      /\ get_child 2 "new"
           (@World SimpleFS.simple_fs h' (test_dicts ++ [[]]) srv [])
         = Some (Ret (Some (length test_heap)),
                 @World SimpleFS.simple_fs h' (test_dicts ++ [[]]) srv [])
      /\ h' !! length test_heap
         = Some (mkFileTree (ParentNode 2) "new" (Some [])
                   (Some (length test_dicts)))
      /\ read_files (length test_heap)
           (@World SimpleFS.simple_fs h' (test_dicts ++ [[]]) srv [])
         = Some (Ret [],
                 @World SimpleFS.simple_fs h' (test_dicts ++ [[]]) srv [])
      /\ (forall a, a <> 2 ->
            h' !! a
            = (test_heap
                 ++ [mkFileTree (ParentNode 2) "new" (Some [])
                       (Some (length test_dicts))])
              !! a)
      /\ (forall fuel',
            get_path (S fuel') h' (length test_heap)
            = (g ← get_path fuel' h' 2; Some (join g ["new"; ""]))).
Proof.
  split; [reflexivity|]. split; [reflexivity|].
  apply (@add_child_name_then_get_child SimpleFS.simple_fs 0 2 "new"
           test_heap test_dicts srv [] folder3 []); reflexivity.
Defined.

(** The root of the example tree is put under its own grandchild. *)
Lemma add_child_of_ancestor_loops_witness :
  test_heap !! 2 = Some folder3 /\ children folder3 = Some []
  /\ test_heap !! 0 = Some folder /\ ancestor test_heap 0 2 2
  /\ exists h',
      add_child 1 2 [ChildNode 0] test_world
      = Some (Ret tt, @World SimpleFS.simple_fs h' test_dicts srv [])
      /\ forall fuel',
           get_root fuel' h' 0 = None /\ get_path fuel' h' 0 = None
           /\ get_root fuel' h' 2 = None /\ get_path fuel' h' 2 = None.
Proof.
  split; [reflexivity|]. split; [reflexivity|]. split; [reflexivity|].
  split; [exact test_heap_ancestor|].
  apply (@add_child_of_ancestor_loops SimpleFS.simple_fs 1 2 0 2
           test_heap test_dicts srv [] folder3 [] folder);
    [reflexivity..|exact test_heap_ancestor].
Defined.

Lemma add_child_keeps_children_named_witness :
  children_named test_heap
  /\ test_heap !! 0 = Some folder
  /\ children folder = Some [("test_folder2", 1)]
  /\ (forall c, ChildNode c ∈ [ChildName "x"; ChildNode 2] ->
                c < length test_heap)
  /\ exists h' k,
      add_child 1 0 [ChildName "x"; ChildNode 2] test_world
      = Some (Ret tt,
              @World SimpleFS.simple_fs h' (test_dicts ++ replicate k [])
                srv [])
      /\ children_named h'.
Proof.
  assert (Hvalid : forall c, ChildNode c ∈ [ChildName "x"; ChildNode 2] ->
                             c < length test_heap).
  { intros c Hc. apply elem_of_cons in Hc as [[=]|Hc].
    apply list_elem_of_singleton in Hc as [= ->]. cbn. lia. }
  split; [exact test_heap_children_named|].
  split; [reflexivity|]. split; [reflexivity|]. split; [exact Hvalid|].
  apply (@add_child_keeps_children_named SimpleFS.simple_fs 0 0
           [ChildName "x"; ChildNode 2] test_heap test_dicts srv [] folder
           [("test_folder2", 1)] test_heap_children_named);
    [reflexivity..|exact Hvalid].
Defined.

(** The first two nodes hold one dict, the third a dict of its own. *)
Lemma add_file_changes_one_dict_witness :
  twins_heap !! 0 = Some twin_1 /\ files twin_1 = Some 0
  /\ twins_dicts !! 0 = Some [("a", "1")]
  /\ kwargs_ok [("b", "2")]
  /\ exists ds',
      add_file 0 [("b", "2")]
        (@World SimpleFS.simple_fs twins_heap twins_dicts srv [])
      = Some (Ret tt, @World SimpleFS.simple_fs twins_heap ds' srv [])
      /\ ds' !! 0 = Some (assign_all [("b", "2")] [("a", "1")])
      /\ (forall r', r' <> 0 -> ds' !! r' = twins_dicts !! r')
      /\ (forall other m file_name,
            twins_heap !! other = Some m -> files m = Some 0 ->
            get_file_content other file_name
              (@World SimpleFS.simple_fs twins_heap ds' srv [])
            = Some (Ret (dict_get (assign_all [("b", "2")] [("a", "1")])
                           file_name),
                    @World SimpleFS.simple_fs twins_heap ds' srv []))
      /\ (forall other m r' d' file_name,
            twins_heap !! other = Some m -> files m = Some r' -> r' <> 0 ->
            twins_dicts !! r' = Some d' ->
            get_file_content other file_name
              (@World SimpleFS.simple_fs twins_heap ds' srv [])
            = Some (Ret (dict_get d' file_name),
                    @World SimpleFS.simple_fs twins_heap ds' srv [])).
Proof.
  assert (Hok : kwargs_ok [("b", "2")]).
  { apply kwargs_ok_checked; reflexivity. }
  split; [reflexivity|]. split; [reflexivity|]. split; [reflexivity|].
  split; [exact Hok|].
  apply (@add_file_changes_one_dict SimpleFS.simple_fs 0 [("b", "2")]
           twins_heap twins_dicts srv [] twin_1 0 [("a", "1")]);
    [reflexivity..|exact Hok].
Defined.

(** On the twins: the file added to the first node is a file of the
    second, and not of the third. *)
Example add_file_reaches_the_twin :
  exists w',
    add_file 0 [("b", "2")]
      (@World SimpleFS.simple_fs twins_heap twins_dicts srv [])
    = Some (Ret tt, w')
    /\ get_file_content 1 "b" w' = Some (Ret (Some "2"), w')
    /\ get_file_content 2 "b" w' = Some (Ret None, w').
Proof. eexists. by vm_compute. Qed.

Lemma file_lookups_witness :
  test_heap !! 0 = Some folder
  /\ files folder = Some 0
  /\ test_dicts !! 0 = Some [("test.txt", "Hello World!")]
  /\ get_file_content 0 "test.txt" test_world
     = Some (Ret (dict_get [("test.txt", "Hello World!")] "test.txt"),
             test_world)
  /\ (dict_get [("test.txt", "Hello World!")] "test.txt" = None ->
      get_file_path 3 0 "test.txt" test_world = Some (Ret None, test_world))
  /\ (forall content p,
        dict_get [("test.txt", "Hello World!")] "test.txt" = Some content ->
        get_path 3 test_heap 0 = Some p ->
        get_file_path 3 0 "test.txt" test_world
        = Some (Ret (Some (join p ["test.txt"])), test_world)).
Proof.
  split; [reflexivity|]. split; [reflexivity|]. split; [reflexivity|].
  apply (@file_lookups SimpleFS.simple_fs 0 "test.txt" 3 test_heap test_dicts
           srv [] folder 0 [("test.txt", "Hello World!")]); reflexivity.
Defined.

Lemma create_file_writes_content_witness :
  test_heap !! 0 = Some folder
  /\ files folder = Some 0
  /\ test_dicts !! 0 = Some [("test.txt", "Hello World!")]
  /\ dict_get [("test.txt", "Hello World!")] "test.txt" = Some "Hello World!"
  /\ get_path 3 test_heap 0 = Some "/srv/test_folder/"
  /\ join "/srv/test_folder/" ["test.txt"] <> ""
  /\ SimpleFS.open_write (join "/srv/test_folder/" ["test.txt"]) "utf-8"
       "Hello World!" srv_with_dirs
     = (None,
        SimpleFS.State (SimpleFS.dirs srv_with_dirs)
          [(["/"; "srv"; "test_folder"; "test.txt"], "Hello World!")])
  /\ create_file 3 0 "test.txt" "utf-8"
       (@World SimpleFS.simple_fs test_heap test_dicts srv_with_dirs [])
     = Some (Ret tt,
             @World SimpleFS.simple_fs test_heap test_dicts
               (SimpleFS.State (SimpleFS.dirs srv_with_dirs)
                  [(["/"; "srv"; "test_folder"; "test.txt"], "Hello World!")])
               []).
Proof.
  repeat (split; [by vm_compute|]).
  apply (@create_file_writes_content SimpleFS.simple_fs
           3 0 "test.txt" "utf-8" test_heap test_dicts srv_with_dirs []
           folder 0
           [("test.txt", "Hello World!")] "Hello World!" "/srv/test_folder/");
    by vm_compute.
Defined.

Lemma create_file_empty_path_witness :
  nameless_heap !! 0 = Some nameless
  /\ files nameless = Some 0
  /\ nameless_dicts !! 0 = Some [("", "x")]
  /\ dict_get [("", "x")] "" = Some "x"
  /\ get_path 1 nameless_heap 0 = Some ""
  /\ create_file 1 0 "" "utf-8"
       (@World SimpleFS.simple_fs nameless_heap nameless_dicts srv [])
     = Some (Raise (FileNotFoundError
                      ("Virtual file " +:+ "" +:+ " not found from node "
                       +:+ name nameless)),
             @World SimpleFS.simple_fs nameless_heap nameless_dicts srv []).
Proof.
  repeat (split; [reflexivity|]).
  apply (@create_file_empty_path SimpleFS.simple_fs 1 0 "utf-8" nameless_heap
           nameless_dicts srv [] nameless 0 [("", "x")] "x"); reflexivity.
Defined.

Lemma add_file_then_create_file_witness :
  test_heap !! 0 = Some folder
  /\ files folder = Some 0
  /\ test_dicts !! 0 = Some [("test.txt", "Hello World!")]
  /\ "test.txt" <> "self"
  /\ get_path 3 test_heap 0 = Some "/srv/test_folder/"
  /\ join "/srv/test_folder/" ["test.txt"] <> ""
  /\ SimpleFS.open_write (join "/srv/test_folder/" ["test.txt"]) "utf-8"
       "Bye" srv_with_dirs
     = (None,
        SimpleFS.State (SimpleFS.dirs srv_with_dirs)
          [(["/"; "srv"; "test_folder"; "test.txt"], "Bye")])
  /\ (add_file 0 [("test.txt", "Bye")];;
      create_file 3 0 "test.txt" "utf-8")
       (@World SimpleFS.simple_fs test_heap test_dicts srv_with_dirs [])
     = Some (Ret tt,
             @World SimpleFS.simple_fs test_heap
               (<[0 := dict_set [("test.txt", "Hello World!")]
                         "test.txt" "Bye"]> test_dicts)
               (SimpleFS.State (SimpleFS.dirs srv_with_dirs)
                  [(["/"; "srv"; "test_folder"; "test.txt"], "Bye")])
               [])
  /\ get_file_content 0 "test.txt"
       (@World SimpleFS.simple_fs test_heap
          (<[0 := dict_set [("test.txt", "Hello World!")]
                    "test.txt" "Bye"]> test_dicts)
          (SimpleFS.State (SimpleFS.dirs srv_with_dirs)
             [(["/"; "srv"; "test_folder"; "test.txt"], "Bye")])
          [])
     = Some (Ret (Some "Bye"),
             @World SimpleFS.simple_fs test_heap
               (<[0 := dict_set [("test.txt", "Hello World!")]
                         "test.txt" "Bye"]> test_dicts)
               (SimpleFS.State (SimpleFS.dirs srv_with_dirs)
                  [(["/"; "srv"; "test_folder"; "test.txt"], "Bye")])
               []).
Proof.
  repeat (split; [by vm_compute|]).
  apply (@add_file_then_create_file SimpleFS.simple_fs
           3 0 "test.txt" "utf-8" test_heap test_dicts srv_with_dirs []
           folder 0
           [("test.txt", "Hello World!")] "Bye" "/srv/test_folder/");
    by vm_compute.
Defined.

Lemma mkdir_follows_plan_witness :
  get_root 5 test_heap 2 = Some 0
  /\ mkdir_plan 5 test_heap 0
     = Some ["/srv/test_folder/";
             "/srv/test_folder/test_folder2/";
             "/srv/test_folder/test_folder2/test_folder3/"]
  /\ exists res fs',
      mkdir 5 2 test_world
      = Some (res, @World SimpleFS.simple_fs test_heap test_dicts fs' [])
      /\ for_each ["/srv/test_folder/";
                   "/srv/test_folder/test_folder2/";
                   "/srv/test_folder/test_folder2/test_folder3/"]
           mkdir_call test_world
         = Some (res, @World SimpleFS.simple_fs test_heap test_dicts fs' []).
Proof.
  split; [by vm_compute|]. split; [by vm_compute|].
  apply (@mkdir_follows_plan SimpleFS.simple_fs 5 test_heap test_dicts
           2 0 _ srv []);
    by vm_compute.
Defined.

Lemma mkdir_runs_directories_of_mkTree_witness :
  get_root 5 test_heap 2 = Some 0
  /\ mkTree_plan 5 test_heap test_dicts 0
     = Some [MakeDirectory "/srv/test_folder/";
             CreateFile 0 "test.txt";
             MakeDirectory "/srv/test_folder/test_folder2/";
             MakeDirectory "/srv/test_folder/test_folder2/test_folder3/";
             CreateFile 2 "test3.txt"]
  /\ exists res fs' res_d fs_d,
      mkTree 5 2 test_world
      = Some (res, @World SimpleFS.simple_fs test_heap test_dicts fs' [])
      /\ run_plan 5
           [MakeDirectory "/srv/test_folder/";
            CreateFile 0 "test.txt";
            MakeDirectory "/srv/test_folder/test_folder2/";
            MakeDirectory "/srv/test_folder/test_folder2/test_folder3/";
            CreateFile 2 "test3.txt"] test_world
         = Some (res, @World SimpleFS.simple_fs test_heap test_dicts fs' [])
      /\ mkdir 5 2 test_world
         = Some (res_d, @World SimpleFS.simple_fs test_heap test_dicts fs_d [])
      /\ for_each
           (directories
              [MakeDirectory "/srv/test_folder/";
               CreateFile 0 "test.txt";
               MakeDirectory "/srv/test_folder/test_folder2/";
               MakeDirectory "/srv/test_folder/test_folder2/test_folder3/";
               CreateFile 2 "test3.txt"])
           mkdir_call test_world
         = Some (res_d, @World SimpleFS.simple_fs test_heap test_dicts fs_d []).
Proof.
  split; [by vm_compute|]. split; [by vm_compute|].
  apply (@mkdir_runs_directories_of_mkTree SimpleFS.simple_fs 5 test_heap
           test_dicts 2 0 _ srv []);
    by vm_compute.
Defined.

Lemma mkTree_after_mkdir_fails_witness :
  mkdir 5 2 test_world
  = Some (Ret tt,
          @World SimpleFS.simple_fs test_heap test_dicts srv_with_dirs [])
  /\ exists r p,
      get_root 5 (w_heap test_world) 2 = Some r
      /\ get_path 5 (w_heap test_world) r = Some p
      /\ mkTree 5 2
           (@World SimpleFS.simple_fs test_heap test_dicts srv_with_dirs [])
         = Some (Raise (FileExistsError p),
                 @World SimpleFS.simple_fs test_heap test_dicts
                   srv_with_dirs []).
Proof.
  split; [by vm_compute|].
  apply (@mkTree_after_mkdir_fails SimpleFS.simple_fs simple_fs_laws
           5 2 test_world).
  by vm_compute.
Defined.

Lemma repr_is_rendered_lines_witness :
  repr_lines 3 test_heap 0 0
  = Some [NodeLine 0 "test_folder"; ChildrenLine 0;
          NodeLine 2 "test_folder2"; ChildrenLine 2;
          NodeLine 4 "test_folder3"]
  /\ __repr__ 3 0 test_world
     = Some (Ret (@render SimpleFS.simple_fs
                    [NodeLine 0 "test_folder"; ChildrenLine 0;
                     NodeLine 2 "test_folder2"; ChildrenLine 2;
                     NodeLine 4 "test_folder3"]),
             test_world).
Proof.
  split; [reflexivity|].
  apply (@repr_is_rendered_lines SimpleFS.simple_fs 3 test_heap test_dicts
           0 _ srv []).
  reflexivity.
Defined.

Lemma add_child_replaces_same_name_witness :
  test_heap !! 0 = Some folder
  /\ children folder = Some [("test_folder2", 1)]
  /\ dict_get [("test_folder2", 1)] "test_folder2" = Some 1
  /\ 1 <> 0 /\ test_heap !! 1 = Some folder2
  /\ exists h' np',
      add_child 1 0 [ChildName "test_folder2"] test_world
      = Some (Ret tt, @World SimpleFS.simple_fs h' (test_dicts ++ [[]]) srv [])
      /\ h' !! 0 = Some np'
      /\ children np'
         = Some (dict_set [("test_folder2", 1)] "test_folder2"
                   (length test_heap))
      /\ dict_keys (dict_set [("test_folder2", 1)] "test_folder2"
                      (length test_heap))
         = dict_keys [("test_folder2", 1)]
      /\ get_child 0 "test_folder2"
           (@World SimpleFS.simple_fs h' (test_dicts ++ [[]]) srv [])
         = Some (Ret (Some (length test_heap)),
                 @World SimpleFS.simple_fs h' (test_dicts ++ [[]]) srv [])
      /\ length test_heap <> 1
      /\ h' !! 1 = Some folder2.
Proof.
  split; [reflexivity|]. split; [reflexivity|]. split; [reflexivity|].
  split; [lia|]. split; [reflexivity|].
  apply (@add_child_replaces_same_name SimpleFS.simple_fs 0 0 "test_folder2"
           test_heap test_dicts srv [] folder [("test_folder2", 1)] 1 folder2);
    [reflexivity..|lia|reflexivity].
Defined.

Lemma init_with_empty_string_lacks_children_witness :
  match Some 0 with
  | Some r => is_Some (test_dicts !! r)
  | None => True
  end
  /\ exists node ds' ws',
      node = mkFileTree (ParentStr "/srv") "other" None
               (Some (default (length test_dicts)
                        (kept_files test_dicts (Some 0))))
      /\ ds' = (if kept_files test_dicts (Some 0) is Some _
               then test_dicts else test_dicts ++ [[]])
      /\ __init__ 1 "other" (ParentStr "/srv") (Some 0)
           (Some (ChildrenStr "")) test_world
         = Some (Ret (length test_heap),
                 @World SimpleFS.simple_fs (test_heap ++ [node]) ds' srv ws')
      /\ get_child (length test_heap) "x"
           (@World SimpleFS.simple_fs (test_heap ++ [node]) ds' srv ws')
         = Some (Raise (AttributeError
                          "'FileTree' object has no attribute 'children'"),
                 @World SimpleFS.simple_fs (test_heap ++ [node]) ds' srv ws')
      /\ exists w',
          add_child 1 (length test_heap) [ChildName "x"]
            (@World SimpleFS.simple_fs (test_heap ++ [node]) ds' srv ws')
          = Some (Raise (AttributeError
                           "'FileTree' object has no attribute 'children'"),
                  w').
Proof.
  assert (Hfiles : match Some 0 with
                   | Some r => is_Some (test_dicts !! r)
                   | None => True
                   end).
  { by eexists. }
  split; [exact Hfiles|].
  exact (@init_with_empty_string_lacks_children SimpleFS.simple_fs 0 "other"
           (ParentStr "/srv") (Some 0) "x" test_heap test_dicts srv []
           Hfiles).
Defined.

End OnMoreExamples.
